(** * myDisassembler: a shallow embedding of the MIPS disassembler

    The Python program [myDisassembler.py] reads a file of 32-bit MIPS words,
    one word of eight hexadecimal digits per line, and renders every word as
    a line of assembly, resolving the relative offsets of [beq]/[bne] into
    [Addr_HHHH] labels that are spliced into the output list while it grows.

    The development has three layers:
    - [Py]: the fragment of Python the program relies on (exceptions and
      [sys.exit] as a result type, [int(s, base)], [str], [hex], [bin],
      slices, [strip], [replace], [zfill], [list.insert]);
    - the program itself, function by function, under the names of the source;
    - the statements about it. *)

From Stdlib Require Import ZArith String Ascii List Bool Lia.
From Stdlib Require Import DecimalString HexString BinaryString.
Import ListNotations.

Open Scope string_scope.
Open Scope Z_scope.

(* ================================================================== *)
(** * The Python fragment *)

Module Py.

(** The exceptions the program can raise without catching them. *)
Inductive exn : Type :=
| ValueError
| TypeError
| IndexError.

(** What running a piece of the program gives: a value, a call of
    [sys.exit(1)] after printing a message, or an exception that nobody
    catches (the interpreter then stops with a traceback). *)
Inductive result (A : Type) : Type :=
| Ok (a : A)
| SysExit (printed : string)
| Raise (e : exn).

Arguments Ok {A} a.
Arguments SysExit {A} printed.
Arguments Raise {A} e.

Definition bind {A B : Type} (m : result A) (k : A -> result B) : result B :=
  match m with
  | Ok a => k a
  | SysExit msg => SysExit msg
  | Raise e => Raise e
  end.

(** ** Characters *)

Definition tab : string := String "009"%char "".
Definition newline : string := String "010"%char "".

(** ASCII white space, as [int] skips it around a literal. *)
Definition isspace (c : ascii) : bool :=
  let n := nat_of_ascii c in
  ((9 <=? n) && (n <=? 13))%nat || (n =? 32)%nat.

(** The value of a character as a digit, in any base up to 36. *)
Definition digit_val (c : ascii) : option Z :=
  let n := Z.of_nat (nat_of_ascii c) in
  if (48 <=? n) && (n <=? 57) then Some (n - 48)
  else if (97 <=? n) && (n <=? 122) then Some (n - 87)
  else if (65 <=? n) && (n <=? 90) then Some (n - 55)
  else None.

(** ** Strings *)

Fixpoint mem_ascii (c : ascii) (s : string) : bool :=
  match s with
  | EmptyString => false
  | String d s' => Ascii.eqb c d || mem_ascii c s'
  end.

Fixpoint lstrip_in (p : ascii -> bool) (l : list ascii) : list ascii :=
  match l with
  | c :: t => if p c then lstrip_in p t else l
  | [] => []
  end.

Definition strip_in (p : ascii -> bool) (l : list ascii) : list ascii :=
  rev (lstrip_in p (rev (lstrip_in p l))).

(** [s.strip(chars)]: drop from both ends the characters that occur in
    [chars]. *)
Definition strip (chars s : string) : string :=
  string_of_list_ascii
    (strip_in (fun c => mem_ascii c chars) (list_ascii_of_string s)).

(** [s[k]] for [k >= 0]. *)
Definition index (s : string) (k : nat) : result ascii :=
  match String.get k s with
  | Some c => Ok c
  | None => Raise IndexError
  end.

Fixpoint drop (n : nat) (s : string) {struct n} : string :=
  match n, s with
  | O, _ => s
  | S n', String _ s' => drop n' s'
  | S _, EmptyString => EmptyString
  end.

Fixpoint take (n : nat) (s : string) {struct n} : string :=
  match n, s with
  | O, _ => EmptyString
  | S n', String c s' => String c (take n' s')
  | S _, EmptyString => EmptyString
  end.

(** [s[a:b]] for [0 <= a <= b]. *)
Definition slice (a b : nat) (s : string) : string :=
  take (b - a) (drop a s).

(** [s[k:]] for any integer [k]: a negative [k] counts from the end, and what
    falls before the start of the string is cut at the start. *)
Definition slice_from (k : Z) (s : string) : string :=
  let len := Z.of_nat (String.length s) in
  let start := if k <? 0 then Z.max 0 (k + len) else k in
  drop (Z.to_nat start) s.

(** [s.startswith(p)] *)
Definition startswith (s p : string) : bool := String.prefix p s.

(** [s.replace(old, new)] for a non-empty [old]: every occurrence of [old],
    found from left to right without overlap, becomes [new].  [skip] counts
    the characters of a match that are still to be passed over. *)
Fixpoint replace_from (old new : string) (skip : nat) (s : string) : string :=
  match s with
  | EmptyString => EmptyString
  | String c s' =>
      match skip with
      | S k => replace_from old new k s'
      | O =>
          if String.prefix old s
          then new ++ replace_from old new (String.length old - 1) s'
          else String c (replace_from old new O s')
      end
  end.

Definition replace (s old new : string) : string := replace_from old new O s.

Fixpoint zeros (n : nat) : string :=
  match n with
  | O => EmptyString
  | S n' => String "0" (zeros n')
  end.

(** [s.zfill(width)]: zeros on the left up to [width] characters, after the
    sign when there is one. *)
Definition zfill (s : string) (width : nat) : string :=
  let pad := zeros (width - String.length s) in
  match s with
  | String c s' =>
      if Ascii.eqb c "+" || Ascii.eqb c "-"
      then String c (pad ++ s')
      else pad ++ s
  | EmptyString => pad
  end.

(** ** Integers *)

(** The digits of a literal: digits of the base, with single underscores
    between them.  [us_ok] says that an underscore may come next, [fin_ok]
    that the literal may end here. *)
Fixpoint parse_digits (base : Z) (l : list ascii) (acc : Z)
         (us_ok fin_ok : bool) : option Z :=
  match l with
  | [] => if fin_ok then Some acc else None
  | c :: t =>
      if Ascii.eqb c "_"
      then (if us_ok then parse_digits base t acc false false else None)
      else match digit_val c with
           | Some d =>
               if d <? base
               then parse_digits base t (acc * base + d) true true
               else None
           | None => None
           end
  end.

(** The prefix that a literal of the base may carry: [0x], [0b], [0o]. *)
Definition base_letter (base : Z) (c : ascii) : bool :=
  if base =? 16 then Ascii.eqb c "x" || Ascii.eqb c "X"
  else if base =? 2 then Ascii.eqb c "b" || Ascii.eqb c "B"
  else if base =? 8 then Ascii.eqb c "o" || Ascii.eqb c "O"
  else false.

Definition parse_unsigned (base : Z) (l : list ascii) : option Z :=
  match l with
  | z :: x :: t =>
      if Ascii.eqb z "0" && base_letter base x
      then parse_digits base t 0 true false
      else parse_digits base l 0 false false
  | _ => parse_digits base l 0 false false
  end.

(** [int(s, base)] on an ASCII string: white space around the literal, an
    optional sign, an optional prefix of the base, digits.  (The limit that
    CPython puts on the length of a decimal literal is far beyond the strings
    of this program and is left out.) *)
Definition int (s : string) (base : Z) : result Z :=
  let l := strip_in isspace (list_ascii_of_string s) in
  let '(neg, body) :=
    match l with
    | c :: t =>
        if Ascii.eqb c "-" then (true, t)
        else if Ascii.eqb c "+" then (false, t)
        else (false, l)
    | [] => (false, l)
    end in
  match parse_unsigned base body with
  | Some v => Ok (if neg then - v else v)
  | None => Raise ValueError
  end.

(** [str(n)], [hex(n)] and [bin(n)] of an integer. *)
Definition str (n : Z) : string := NilZero.string_of_int (Z.to_int n).
Definition hex (n : Z) : string := HexString.of_Z n.
Definition bin (n : Z) : string := BinaryString.of_Z n.

(** [s.find(sub)]: the position of the first occurrence of [sub] in [s], or
    [-1] when there is none.  [i] is the position of the start of [s]. *)
Fixpoint find_from (sub s : string) (i : Z) : Z :=
  if String.prefix sub s then i
  else match s with
       | EmptyString => -1
       | String _ s' => find_from sub s' (i + 1)
       end.

Definition find (s sub : string) : Z := find_from sub s 0.

(** [s[:k]] for any integer [k]: a negative [k] counts from the end, and what
    falls before the start of the string is cut at the start. *)
Definition slice_to (k : Z) (s : string) : string :=
  let len := Z.of_nat (String.length s) in
  let stop := if k <? 0 then Z.max 0 (k + len) else k in
  take (Z.to_nat stop) s.

(** ** Lists *)

(** [l[k]] for [k >= 0]. *)
Definition item {A : Type} (l : list A) (k : Z) : result A :=
  match nth_error l (Z.to_nat k) with
  | Some x => Ok x
  | None => Raise IndexError
  end.

(** [l.insert(k, x)] for [k >= 0]: [x] comes before the element at position
    [k], or last when the list is shorter. *)
Definition insert {A : Type} (l : list A) (k : Z) (x : A) : list A :=
  firstn (Z.to_nat k) l ++ x :: skipn (Z.to_nat k) l.

(** ** Dictionaries with string keys, in the order of the literal *)

Definition dict : Type := list (string * string).

(** [d.get(k)] *)
Fixpoint get (d : dict) (k : string) : option string :=
  match d with
  | [] => None
  | (k', v) :: d' => if String.eqb k k' then Some v else get d' k
  end.

(** [k in d.keys()] *)
Definition has_key (d : dict) (k : string) : bool :=
  match get d k with Some _ => true | None => false end.

(** [a + b] where either side may be [None]: only two strings add up. *)
Definition add (a b : option string) : result string :=
  match a, b with
  | Some x, Some y => Ok (x ++ y)
  | _, _ => Raise TypeError
  end.

End Py.

Import Py.

Notation "x <- m ;; k" := (Py.bind m (fun x => k))
  (at level 61, m at next level, right associativity).
Notation "m ;;; k" := (Py.bind m (fun _ => k))
  (at level 61, right associativity).

(* ================================================================== *)
(** * The program *)

Definition HEX_BASE : Z := 16.
Definition BIN_BASE : Z := 2.

(** The 11 R-type instructions, by function code. *)
Definition rOpcodes : dict :=
  [ ("0x0", "sll"); ("0x2", "srl"); ("0x20", "add"); ("0x21", "addu");
    ("0x22", "sub"); ("0x23", "subu"); ("0x24", "and"); ("0x25", "or");
    ("0x27", "nor"); ("0x2a", "slt"); ("0x2b", "sltu") ].

(** The 17 I-type instructions, by primary opcode. *)
Definition iOpcodes : dict :=
  [ ("0x4", "beq"); ("0x5", "bne"); ("0x8", "addi"); ("0x9", "addiu");
    ("0xa", "slti"); ("0xb", "sltiu"); ("0xc", "andi"); ("0xd", "ori");
    ("0xf", "lui"); ("0x23", "lw"); ("0x24", "lbu"); ("0x25", "lhu");
    ("0x28", "sb"); ("0x29", "sh"); ("0x30", "ll"); ("0x38", "sc");
    ("0x2b", "sw") ].

(** The 32 registers, by the five bits of the field. *)
Definition registerDictionary : dict :=
  [ ("00000", "$zero"); ("00001", "$at"); ("00010", "$v0"); ("00011", "$v1");
    ("00100", "$a0"); ("00101", "$a1"); ("00110", "$a2"); ("00111", "$a3");
    ("01000", "$t0"); ("01001", "$t1"); ("01010", "$t2"); ("01011", "$t3");
    ("01100", "$t4"); ("01101", "$t5"); ("01110", "$t6"); ("01111", "$t7");
    ("10000", "$s0"); ("10001", "$s1"); ("10010", "$s2"); ("10011", "$s3");
    ("10100", "$s4"); ("10101", "$s5"); ("10110", "$s6"); ("10111", "$s7");
    ("11000", "$t8"); ("11001", "$t9"); ("11010", "$k0"); ("11011", "$k1");
    ("11100", "$gp"); ("11101", "$sp"); ("11110", "$fp"); ("11111", "$ra") ].

(** One hexadecimal digit, lower case only, to its four bits. *)
Definition hexToBinLookup : dict :=
  [ ("0", "0000"); ("1", "0001"); ("2", "0010"); ("3", "0011");
    ("4", "0100"); ("5", "0101"); ("6", "0110"); ("7", "0111");
    ("8", "1000"); ("9", "1001"); ("a", "1010"); ("b", "1011");
    ("c", "1100"); ("d", "1101"); ("e", "1110"); ("f", "1111") ].

(** [hexToBinLookup.get(s[k])]: the character is read first (and may be
    missing), the table is then asked and may answer [None]. *)
Definition lookupAt (s : string) (k : nat) : result (option string) :=
  c <- index s k ;;
  Ok (get hexToBinLookup (String c "")).

(** [errorOut] (lines 111-113): a message on the console, then
    [sys.exit(1)]. *)
Definition errorOut {A : Type} (instruction : string) (index : Z) : result A :=
  SysExit ("Cannot disassemble " ++ instruction ++ " at line " ++ str index).

(** [getOpCode] (lines 124-130): the six bits of the opcode, as the text of
    [hex]. *)
Definition getOpCode (hexValueAsString : string) : result string :=
  let hexValSplit := slice 0 2 hexValueAsString in
  n <- int hexValSplit HEX_BASE ;;
  let hexValShifted := hex (Z.shiftr n 2) in
  Ok hexValShifted.

(** [getRTypeFunction] (lines 132-145): the name of the function code in
    the last six bits. *)
Definition getRTypeFunction (hexValueAsString : string) (index : Z)
  : result string :=
  let bitMask := 63 in
  let hexValSplit :=
    slice_from (Z.of_nat (String.length hexValueAsString) - 4)
               hexValueAsString in
  n <- int hexValSplit HEX_BASE ;;
  let hexValShifted := hex (Z.land n bitMask) in
  match get rOpcodes hexValShifted with
  | None => errorOut hexValueAsString index
  | Some name => Ok name
  end.

(** [getRTypeRDRegister] (lines 147-158), [getRSRegister] (lines 160-172)
    and [getRTRegister] (lines 174-186): the name of a register, from five of
    the eight bits of two digits. *)
Definition getRTypeRDRegister (hexValueAsString : string) (index : Z)
  : result string :=
  b4 <- lookupAt hexValueAsString 4 ;;
  b5 <- lookupAt hexValueAsString 5 ;;
  binString <- add b4 b5 ;;
  match get registerDictionary (slice 0 5 binString) with
  | None => errorOut hexValueAsString index
  | Some name => Ok name
  end.

Definition getRSRegister (hexValueAsString : string) (index : Z)
  : result string :=
  b1 <- lookupAt hexValueAsString 1 ;;
  b2 <- lookupAt hexValueAsString 2 ;;
  binString <- add b1 b2 ;;
  match get registerDictionary (slice 2 7 binString) with
  | None => errorOut hexValueAsString index
  | Some name => Ok name
  end.

Definition getRTRegister (hexValueAsString : string) (index : Z)
  : result string :=
  b2 <- lookupAt hexValueAsString 2 ;;
  b3 <- lookupAt hexValueAsString 3 ;;
  binString <- add b2 b3 ;;
  match get registerDictionary (slice_from 3 binString) with
  | None => errorOut hexValueAsString index
  | Some name => Ok name
  end.

(** [getRTypeShamt] (lines 188-195) and [getITypeImmediate] (lines 197-206):
    the decimal text of the shift amount and of the immediate. *)
Definition getRTypeShamt (hexValueAsString : string) : result string :=
  b5 <- lookupAt hexValueAsString 5 ;;
  b6 <- lookupAt hexValueAsString 6 ;;
  binString <- add b5 b6 ;;
  n <- int (slice 1 6 binString) BIN_BASE ;;
  Ok (str n).

Definition getITypeImmediate (hexValueAsString : string) : result string :=
  b4 <- lookupAt hexValueAsString 4 ;;
  b5 <- lookupAt hexValueAsString 5 ;;
  binString <- add b4 b5 ;;
  b6 <- lookupAt hexValueAsString 6 ;;
  binString <- add (Some binString) b6 ;;
  b7 <- lookupAt hexValueAsString 7 ;;
  binString <- add (Some binString) b7 ;;
  n <- int binString BIN_BASE ;;
  Ok (str n).

(** The loop of [twosCM]: every character but the first is flipped when it
    is a binary digit. *)
Definition flipBit (c : ascii) : ascii :=
  if Ascii.eqb c "0" then "1"%char
  else if Ascii.eqb c "1" then "0"%char
  else c.

Definition flipTail (binString : string) : string :=
  match binString with
  | EmptyString => EmptyString
  | String c rest =>
      String c (string_of_list_ascii (map flipBit (list_ascii_of_string rest)))
  end.

(** [twosCM] (lines 208-227) *)
Definition twosCM (immediate : string) : result string :=
  n <- int immediate 10 ;;
  let binString := strip "0b" (bin (Z.land n 65535)) in
  let binString := flipTail binString in
  m <- int binString 10 ;;
  let twosCM := m + 1 in
  Ok (str twosCM).

(** [getSignedInteger] (lines 229-238) *)
Definition getSignedInteger (twosCM : string) : result string :=
  signBit <- index twosCM 0 ;;
  if Ascii.eqb signBit "0"
  then n <- int (slice_from 1 twosCM) BIN_BASE ;; Ok (str n)
  else n <- int (slice_from 1 twosCM) BIN_BASE ;; Ok (str (n * -1)).

(** ** The loop of [main] *)

(** What lives across the iterations: the output list and the single pending
    forward label. *)
Record State : Type := mkState {
  listQ : list string;
  tempAddress : string;
  checkIndex : Z
}.

Definition initial : State := mkState [] "" 0.

(** [listQ.append(msg)] *)
Definition appendLine (st : State) (msg : string) : State :=
  mkState (listQ st ++ [msg]) (tempAddress st) (checkIndex st).

(** The four-field line, a tab and then the fields separated by commas. *)
Definition line4 (a b c d : string) : string :=
  tab ++ a ++ ", " ++ b ++ ", " ++ c ++ ", " ++ d.

(** The line of [lw] and [sw]. *)
Definition lineMem (func rt im rs : string) : string :=
  tab ++ func ++ ", " ++ rt ++ ", " ++ im ++ "(" ++ rs ++ ")".

(** The label line and the label itself. *)
Definition labelLine (addr : string) : string := "Addr_" ++ addr ++ ":".
Definition labelRef (addr : string) : string := "Addr_" ++ addr.

(** [hex(n).replace('0x', '').zfill(4)] *)
Definition hexAddress (n : Z) : string := zfill (replace (hex n) "0x" "") 4.

(** The branch [beq]/[bne] at a slot that is not the pending one (lines
    285-311 of [main]). *)
Definition branch (func rt rs im : string) (index : Z) (st : State)
  : result State :=
  r <- int im 10 ;;
  limit <- int "1000000000000000" BIN_BASE ;;
  if r >=? limit then
    tcm <- twosCM im ;;
    signedInt <- getSignedInteger tcm ;;
    d <- int signedInt 10 ;;
    let tempIndex := index + d in
    let tempIndex := if tempIndex <? 0 then 0 else tempIndex in
    let hexAddr := hexAddress (tempIndex * 4) in
    there <- item (listQ st) tempIndex ;;
    let q := if startswith there "Addr"
             then listQ st
             else insert (listQ st) tempIndex (labelLine hexAddr) in
    let msg := line4 func rt rs (labelRef hexAddr) in
    Ok (mkState (q ++ [msg]) (tempAddress st) (checkIndex st))
  else
    let checkIndex' := index + r in
    let tempAddress' := hexAddress (checkIndex' * 4 + 4) in
    let msg := line4 func rt rs (labelRef tempAddress') in
    Ok (mkState (listQ st ++ [msg]) tempAddress' checkIndex').

(** One iteration of the [for] loop of [main] (lines 248-316).  An opcode
    that is neither zero nor a key of [iOpcodes] falls through both tests:
    the test of line 269 sits under the opposite test of line 268. *)
Definition step (index : Z) (value : string) (st : State) : result State :=
  opcode <- getOpCode value ;;
  if String.eqb opcode "0x0" then
    func <- getRTypeFunction value index ;;
    rd <- getRTypeRDRegister value index ;;
    rs <- getRSRegister value index ;;
    rt <- getRTRegister value index ;;
    sh <- getRTypeShamt value ;;
    if String.eqb func "srl" || String.eqb func "sll"
    then Ok (appendLine st (line4 func rd rt sh))
    else Ok (appendLine st (line4 func rd rs rt))
  else
    match get iOpcodes opcode with
    | Some func =>
        (if negb (has_key iOpcodes opcode)
         then errorOut value index else Ok tt) ;;;
        rs <- getRSRegister value index ;;
        rt <- getRTRegister value index ;;
        im <- getITypeImmediate value ;;
        if String.eqb func "sw" || String.eqb func "lw" then
          Ok (appendLine st (lineMem func rt im rs))
        else if String.eqb func "beq" || String.eqb func "bne" then
          if index =? checkIndex st
          then Ok (appendLine st (labelLine (tempAddress st)))
          else branch func rt rs im index st
        else
          Ok (appendLine st (line4 func rt rs im))
    | None => Ok st
    end.

(** The loop over [enumerate(hex_values)] (line 248), from slot [index]
    on. *)
Fixpoint loop (index : Z) (hex_values : list string) (st : State)
  : result State :=
  match hex_values with
  | [] => Ok st
  | value :: rest =>
      st' <- step index value st ;;
      loop (index + 1) rest st'
  end.

(** [main] (lines 240-326) on the lines of the input file: the lines that
    are printed and written to the output file once the loop is over.
    Nothing is written when the loop does not reach its end. *)
Definition main (hex_values : list string) : result (list string) :=
  st <- loop 0 hex_values initial ;;
  Ok (listQ st).

(** The name of the output file (line 323), from the first argument of the
    command line: what comes before its first dot, and [.s]. *)
Definition outputName (argv1 : string) : string :=
  slice_to (find argv1 ".") argv1 ++ ".s".

(* ================================================================== *)
(** * Input words *)

(** An input line is the text of a word, eight hexadecimal digits with the
    most significant first, followed by the end of line that [readlines]
    keeps (the last line of a file may lack it). *)

Definition nibble (w k : Z) : Z := Z.land (Z.shiftr w (4 * k)) 15.

Definition lowerDigit (d : Z) : ascii :=
  match d with
  | 0 => "0" | 1 => "1" | 2 => "2" | 3 => "3" | 4 => "4" | 5 => "5"
  | 6 => "6" | 7 => "7" | 8 => "8" | 9 => "9" | 10 => "a" | 11 => "b"
  | 12 => "c" | 13 => "d" | 14 => "e" | _ => "f"
  end%char.

Definition upperDigit (d : Z) : ascii :=
  match d with
  | 0 => "0" | 1 => "1" | 2 => "2" | 3 => "3" | 4 => "4" | 5 => "5"
  | 6 => "6" | 7 => "7" | 8 => "8" | 9 => "9" | 10 => "A" | 11 => "B"
  | 12 => "C" | 13 => "D" | 14 => "E" | _ => "F"
  end%char.

Definition hexWord (digit : Z -> ascii) (w : Z) : string :=
  String (digit (nibble w 7)) (String (digit (nibble w 6))
  (String (digit (nibble w 5)) (String (digit (nibble w 4))
  (String (digit (nibble w 3)) (String (digit (nibble w 2))
  (String (digit (nibble w 1)) (String (digit (nibble w 0)) ""))))))).

Definition endOfLine (eol : bool) : string := if eol then newline else "".

Definition lowerLine (w : Z) (eol : bool) : string :=
  hexWord lowerDigit w ++ endOfLine eol.

Definition upperLine (w : Z) (eol : bool) : string :=
  hexWord upperDigit w ++ endOfLine eol.

Definition isWord (w : Z) : Prop := 0 <= w < 2 ^ 32.

(** The fields of a word. *)
Definition opcodeOf (w : Z) : Z := Z.shiftr w 26.
Definition rsOf (w : Z) : Z := Z.land (Z.shiftr w 21) 31.
Definition rtOf (w : Z) : Z := Z.land (Z.shiftr w 16) 31.
Definition rdOf (w : Z) : Z := Z.land (Z.shiftr w 11) 31.
Definition shamtOf (w : Z) : Z := Z.land (Z.shiftr w 6) 31.
Definition functOf (w : Z) : Z := Z.land w 63.
Definition immOf (w : Z) : Z := Z.land w 65535.

Definition isBranch (w : Z) : Prop := opcodeOf w = 4 \/ opcodeOf w = 5.

Definition branchName (w : Z) : string :=
  if opcodeOf w =? 4 then "beq" else "bne".

(** The 32 register names, by number. *)
Definition abiNames : list string :=
  [ "$zero"; "$at"; "$v0"; "$v1"; "$a0"; "$a1"; "$a2"; "$a3";
    "$t0"; "$t1"; "$t2"; "$t3"; "$t4"; "$t5"; "$t6"; "$t7";
    "$s0"; "$s1"; "$s2"; "$s3"; "$s4"; "$s5"; "$s6"; "$s7";
    "$t8"; "$t9"; "$k0"; "$k1"; "$gp"; "$sp"; "$fp"; "$ra" ].

Definition registerName (n : Z) : string := nth (Z.to_nat n) abiNames "".

(** The five bits of a register number, as the key of the dictionary. *)
Definition bitChar (b : bool) : ascii := if b then "1"%char else "0"%char.

Definition fiveBits (n : Z) : string :=
  String (bitChar (Z.testbit n 4)) (String (bitChar (Z.testbit n 3))
  (String (bitChar (Z.testbit n 2)) (String (bitChar (Z.testbit n 1))
  (String (bitChar (Z.testbit n 0)) "")))).

(* ================================================================== *)
(** * Definitions for the statements *)

(** ** Literals *)

(** A character that [int] reads as the digit [v] of the base and as nothing
    else: no white space, no sign, no underscore, no letter of a prefix. *)
Definition plainDigit (base : Z) (c : ascii) (v : Z) : Prop :=
  isspace c = false /\ Ascii.eqb c "_" = false /\ Ascii.eqb c "-" = false /\
  Ascii.eqb c "+" = false /\ base_letter base c = false /\
  digit_val c = Some v /\ (v <? base) = true.

(** The number that digits spell, after the number [acc] of the digits
    before them. *)
Definition valueOf (base : Z) (vs : list Z) (acc : Z) : Z :=
  fold_left (fun a v => a * base + v) vs acc.

(** The four bits that the table gives for a digit. *)
Definition fourBits (d : Z) : string :=
  String (bitChar (Z.testbit d 3)) (String (bitChar (Z.testbit d 2))
  (String (bitChar (Z.testbit d 1)) (String (bitChar (Z.testbit d 0)) ""))).

(** The part of a line that [getRTypeFunction] reads. *)
Definition lastFour (value : string) : string :=
  slice_from (Z.of_nat (String.length value) - 4) value.

(** The digit of weight [16 ^ k] is one of [0]..[9]. *)
Definition decimalAt (w k : Z) : bool := nibble w k <? 10.

(** ** Outcomes of an iteration *)

(** What an iteration does with its lines: it keeps the pending label. *)
Definition emit (st : State) (lines : list string) : State :=
  mkState (listQ st ++ lines) (tempAddress st) (checkIndex st).

(** A line that renders an instruction begins with a tab. *)
Definition rendered (line : string) : Prop := exists text, line = tab ++ text.

(** The lines of a word that is not a branch, from its fields alone:
    [None] when the function code of an R-type word is not in the table. *)
Definition plainLines (w : Z) : option (list string) :=
  let rs := registerName (rsOf w) in
  let rt := registerName (rtOf w) in
  if String.eqb (hex (opcodeOf w)) "0x0" then
    match get rOpcodes (hex (functOf w)) with
    | Some func =>
        if String.eqb func "srl" || String.eqb func "sll"
        then Some [line4 func (registerName (rdOf w)) rt (str (shamtOf w))]
        else Some [line4 func (registerName (rdOf w)) rs rt]
    | None => None
    end
  else
    match get iOpcodes (hex (opcodeOf w)) with
    | Some func =>
        if String.eqb func "sw" || String.eqb func "lw"
        then Some [lineMem func rt (str (immOf w)) rs]
        else Some [line4 func rt rs (str (immOf w))]
    | None => Some []
    end.

(** What an iteration that reaches its end has done to the buffer, whatever
    the line was: it has appended lines, or it has spliced a label before a
    line that was there and appended one line. *)
Inductive bufferChange (q q' : list string) : Prop :=
| Appended (ls : list string) :
    q' = (q ++ ls)%list -> bufferChange q q'
| Spliced (p : nat) (addr msg : string) :
    (p < length q)%nat ->
    q' = (insert q (Z.of_nat p) (labelLine addr) ++ [msg])%list ->
    bufferChange q q'.

(** Two outcomes of an iteration that a reader of the output cannot tell
    apart: the same state, a stop of the run in both, or the same exception. *)
Definition sameOutcome (a b : result State) : Prop :=
  match a, b with
  | Ok s, Ok s' => s = s'
  | SysExit _, SysExit _ => True
  | Raise e, Raise e' => e = e'
  | _, _ => False
  end.

(** ** Words from their fields, and programs *)

Definition encodeR (rs rt rd shamt funct : Z) : Z :=
  rs * 2 ^ 21 + rt * 2 ^ 16 + rd * 2 ^ 11 + shamt * 2 ^ 6 + funct.

Definition encodeI (op rs rt imm : Z) : Z :=
  op * 2 ^ 26 + rs * 2 ^ 21 + rt * 2 ^ 16 + imm.

Definition isRegister (n : Z) : Prop := 0 <= n < 32.

(** An input line, from a word and whether the end of line is there. *)
Definition asLine (we : Z * bool) : string := lowerLine (fst we) (snd we).

(** The lines of a program without branches, word after word: [None] when
    one of the words has an unknown function code. *)
Fixpoint programLines (ws : list Z) : option (list string) :=
  match ws with
  | [] => Some []
  | w :: rest =>
      match plainLines w, programLines rest with
      | Some ls, Some ls' => Some (ls ++ ls')%list
      | _, _ => None
      end
  end.

(** ** Shapes of lines and of the state *)

Definition isLabelLine (line : string) : Prop :=
  exists addr, line = labelLine addr.

(** A line of the buffer renders an instruction or is a label. *)
Definition wellShaped (line : string) : Prop :=
  rendered line \/ isLabelLine line.

(** What one iteration that reaches its end does to the state: nothing; one
    line at the end; a label spliced before a line of the buffer and one line
    at the end; or one line at the end and a new pending label. *)
Inductive stepEffect (st st' : State) : Prop :=
| Skipped : st' = st -> stepEffect st st'
| OneLine (msg : string) :
    wellShaped msg -> st' = appendLine st msg -> stepEffect st st'
| SplicedLine (p : nat) (addr msg : string) :
    (p < length (listQ st))%nat -> rendered msg ->
    st' = mkState (insert (listQ st) (Z.of_nat p) (labelLine addr) ++ [msg])
                  (tempAddress st) (checkIndex st) ->
    stepEffect st st'
| ForwardLine (msg : string) (target : Z) :
    rendered msg ->
    st' = mkState (listQ st ++ [msg]) (hexAddress (target * 4 + 4)) target ->
    stepEffect st st'.

(** The pending label is the one of the start, or its text is the address
    text of four times its slot plus four. *)
Definition pendingShape (st : State) : Prop :=
  (tempAddress st = "" /\ checkIndex st = 0)
  \/ tempAddress st = hexAddress (checkIndex st * 4 + 4).

(** The opcode of the line can be read and is zero or a key of [iOpcodes]. *)
Definition knownOpcode (value : string) : Prop :=
  exists opcode,
    getOpCode value = Ok opcode
    /\ (opcode = "0x0" \/ has_key iOpcodes opcode = true).

Definition blank (value : string) : Prop :=
  Forall (fun c => isspace c = true) (list_ascii_of_string value).

Definition dotless (s : string) : Prop :=
  Forall (fun c => c <> "."%char) (list_ascii_of_string s).

(** ** Properties that are checked value by value *)

Fixpoint countFrom (start : Z) (n : nat) : list Z :=
  match n with
  | O => []
  | S n' => start :: countFrom (start + 1) n'
  end.

(** The integers from 0 to [n - 1]. *)
Definition upto (n : Z) : list Z := countFrom 0 (Z.to_nat n).

Definition result_eqb {A : Type} (eqb : A -> A -> bool) (x y : result A)
  : bool :=
  match x, y with
  | Ok a, Ok b => eqb a b
  | SysExit m, SysExit m' => String.eqb m m'
  | Raise ValueError, Raise ValueError => true
  | Raise TypeError, Raise TypeError => true
  | Raise IndexError, Raise IndexError => true
  | _, _ => false
  end.

(** [int(str(r))] gives [r] back. *)
Definition decimalChecked (r : Z) : bool :=
  result_eqb Z.eqb (int (str r) 10) (Ok r).

(** The conversion of the odd immediate [32769 + 2 * k]: the text that
    [getSignedInteger] returns for what [twosCM] makes of it, and the integer
    that [main] reads back from that text. *)
Definition oddChecked (k : Z) : bool :=
  let r := 32769 + 2 * k in
  result_eqb String.eqb
    (tcm <- twosCM (str r) ;; getSignedInteger tcm) (Ok (str (r - 65536)))
  && result_eqb Z.eqb (int (str (r - 65536)) 10) (Ok (r - 65536)).

(** The conversion of the even immediate [32768 + 2 * k] does not give the
    text of [r - 65536]. *)
Definition evenChecked (k : Z) : bool :=
  let r := 32768 + 2 * k in
  negb (result_eqb String.eqb
          (tcm <- twosCM (str r) ;; getSignedInteger tcm)
          (Ok (str (r - 65536)))).

(** The four hexadecimal digits of an address below [16 ^ 4], the most
    significant first. *)
Definition fourDigits (n : Z) : string :=
  String (lowerDigit (nibble n 3)) (String (lowerDigit (nibble n 2))
  (String (lowerDigit (nibble n 1)) (String (lowerDigit (nibble n 0)) ""))).

Definition addressChecked (n : Z) : bool :=
  String.eqb (hexAddress n) (fourDigits n).

(** An opcode that the table names [beq] or [bne] is 4 or 5. *)
Definition branchOnlyChecked (op : Z) : bool :=
  match get iOpcodes (hex op) with
  | Some func =>
      if String.eqb func "beq" || String.eqb func "bne"
      then (op =? 4) || (op =? 5)
      else true
  | None => true
  end.

(** The conversion of the immediate [32769 + k], which has the sign bit set
    and some other bit: the text of [r - 65536] divided by the largest power
    of two that divides [r]. *)
Definition conversionChecked (k : Z) : bool :=
  let r := 32769 + k in
  result_eqb String.eqb
    (tcm <- twosCM (str r) ;; getSignedInteger tcm)
    (Ok (str ((r - 65536) / Z.gcd r 32768))).

(** The key of a register number has the name of that number, one of the 32
    names. *)
Definition registerChecked (n : Z) : bool :=
  match get registerDictionary (fiveBits n) with
  | Some name =>
      String.eqb name (registerName n)
      && existsb (String.eqb name) abiNames
  | None => false
  end.

(* ================================================================== *)
(** * Checking a property on a range of integers by evaluation *)

Section Ranges.

Lemma countFrom_In n :
  forall start r, start <= r < start + Z.of_nat n -> In r (countFrom start n).
Proof.
  induction n as [| n IH]; intros start r Hr.
  - lia.
  - simpl. destruct (Z.eq_dec start r) as [-> | Hne].
    + now left.
    + right. apply IH. lia.
Qed.

Lemma upto_spec (f : Z -> bool) (n : Z) :
  forallb f (upto n) = true ->
  forall r, 0 <= r < n -> f r = true.
Proof.
  intros Hall r Hr.
  rewrite forallb_forall in Hall.
  apply Hall. apply countFrom_In. lia.
Qed.

Lemma result_eqb_string (x y : result string) :
  result_eqb String.eqb x y = true -> x = y.
Proof.
  destruct x as [a|m|[]], y as [b|m'|[]]; simpl; try discriminate;
    try reflexivity; intros H; apply String.eqb_eq in H; now subst.
Qed.

Lemma result_eqb_Z (x y : result Z) :
  result_eqb Z.eqb x y = true -> x = y.
Proof.
  destruct x as [a|m|[]], y as [b|m'|[]]; simpl; try discriminate;
    try reflexivity; intros H.
  - apply Z.eqb_eq in H. now subst.
  - apply String.eqb_eq in H. now subst.
Qed.

End Ranges.

(** A property of the sixteen digits, case by case. *)
Lemma digit_cases (P : Z -> Prop) :
  P 0 -> P 1 -> P 2 -> P 3 -> P 4 -> P 5 -> P 6 -> P 7 ->
  P 8 -> P 9 -> P 10 -> P 11 -> P 12 -> P 13 -> P 14 -> P 15 ->
  forall d, 0 <= d < 16 -> P d.
Proof.
  intros. 
  assert (d = 0 \/ d = 1 \/ d = 2 \/ d = 3 \/ d = 4 \/ d = 5 \/ d = 6 \/
          d = 7 \/ d = 8 \/ d = 9 \/ d = 10 \/ d = 11 \/ d = 12 \/ d = 13 \/
          d = 14 \/ d = 15) as Hd by lia.
  repeat (destruct Hd as [Hd | Hd]; [subst d; assumption |]).
  subst d; assumption.
Qed.

Ltac each_digit d Hd :=
  revert d Hd;
  match goal with
  | |- forall d, 0 <= d < 16 -> @?P d => apply (digit_cases P)
  end.

(** ** Nibbles and fields *)

Ltac to_divmod :=
  unfold isWord, nibble, opcodeOf, rsOf, rtOf, rdOf, shamtOf, functOf, immOf
    in *;
  change 15 with (Z.ones 4); change 31 with (Z.ones 5);
  change 63 with (Z.ones 6); change 65535 with (Z.ones 16);
  rewrite ?Z.land_ones, ?Z.shiftr_div_pow2 by lia;
  repeat match goal with
         | |- context [2 ^ ?k] =>
             let v := eval vm_compute in (2 ^ k) in change (2 ^ k) with v
         | H : context [2 ^ ?k] |- _ =>
             let v := eval vm_compute in (2 ^ k) in change (2 ^ k) with v in H
         end.

Lemma nibble_range w k : 0 <= k -> 0 <= nibble w k < 16.
Proof.
  intros Hk. unfold nibble. change 15 with (Z.ones 4).
  rewrite Z.land_ones by lia. apply Z.mod_pos_bound. reflexivity.
Qed.

Lemma opcodeOf_nibbles w :
  isWord w -> opcodeOf w = Z.shiftr (16 * nibble w 7 + nibble w 6) 2.
Proof. intros H. to_divmod. Z.to_euclidean_division_equations. lia. Qed.

Lemma opcodeOf_range w : isWord w -> 0 <= opcodeOf w < 64.
Proof. intros H. to_divmod. Z.to_euclidean_division_equations. lia. Qed.

Lemma rsOf_nibbles w :
  rsOf w = Z.land (Z.shiftr (16 * nibble w 6 + nibble w 5) 1) 31.
Proof. to_divmod. Z.to_euclidean_division_equations. lia. Qed.

Lemma rtOf_nibbles w :
  rtOf w = Z.land (16 * nibble w 5 + nibble w 4) 31.
Proof. to_divmod. Z.to_euclidean_division_equations. lia. Qed.

Lemma rdOf_nibbles w :
  rdOf w = Z.shiftr (16 * nibble w 3 + nibble w 2) 3.
Proof. to_divmod. Z.to_euclidean_division_equations. lia. Qed.

Lemma shamtOf_nibbles w :
  shamtOf w = Z.land (Z.shiftr (16 * nibble w 2 + nibble w 1) 2) 31.
Proof. to_divmod. Z.to_euclidean_division_equations. lia. Qed.

Lemma immOf_range w : 0 <= immOf w < 65536.
Proof. to_divmod. Z.to_euclidean_division_equations. lia. Qed.

Lemma nibble_immOf w k :
  0 <= k < 4 -> nibble (immOf w) k = nibble w k.
Proof.
  intros Hk.
  assert (k = 0 \/ k = 1 \/ k = 2 \/ k = 3) as [-> | [-> | [-> | ->]]] by lia;
    to_divmod; Z.to_euclidean_division_equations; lia.
Qed.

(* ================================================================== *)
(** * [int] on a literal made of plain digits *)

Section PlainDigits.

Variable base : Z.

Lemma lstrip_in_keeps p c l : p c = false -> lstrip_in p (c :: l) = c :: l.
Proof. intros H. simpl. now rewrite H. Qed.

Lemma lstrip_in_drops p ws l :
  Forall (fun c => p c = true) ws -> lstrip_in p (ws ++ l) = lstrip_in p l.
Proof.
  induction 1 as [| c ws Hc _ IH]; simpl; [reflexivity |].
  now rewrite Hc.
Qed.

Lemma strip_in_plain cs vs ws :
  Forall2 (plainDigit base) cs vs ->
  Forall (fun c => isspace c = true) ws ->
  strip_in isspace (cs ++ ws) = cs.
Proof.
  intros Hcs Hws. unfold strip_in.
  assert (Forall (fun c => isspace c = false) cs) as Hns.
  { induction Hcs as [| c v cs vs Hc _ IH]; constructor; [apply Hc | exact IH]. }
  assert (forall l, Forall (fun c => isspace c = false) l ->
                    lstrip_in isspace l = l) as Hkeep.
  { intros l Hl. destruct Hl; [reflexivity | now apply lstrip_in_keeps]. }
  destruct cs as [| c cs].
  - simpl. rewrite <- (app_nil_r ws) at 1.
    rewrite lstrip_in_drops by exact Hws. reflexivity.
  - rewrite <- app_comm_cons.
    rewrite lstrip_in_keeps by (inversion Hns; assumption).
    rewrite app_comm_cons, rev_app_distr.
    rewrite lstrip_in_drops by (apply Forall_rev; exact Hws).
    rewrite Hkeep by (apply Forall_rev; exact Hns).
    apply rev_involutive.
Qed.

Lemma parse_digits_plain cs vs :
  Forall2 (plainDigit base) cs vs ->
  forall acc us_ok fin_ok,
    cs <> [] \/ fin_ok = true ->
    parse_digits base cs acc us_ok fin_ok = Some (valueOf base vs acc).
Proof.
  induction 1 as [| c v cs vs Hc _ IH]; intros acc us_ok fin_ok Hne.
  - destruct Hne as [Hne | ->]; [congruence | reflexivity].
  - destruct Hc as (_ & Hu & _ & _ & _ & Hv & Hlt).
    simpl. rewrite Hu, Hv, Hlt.
    apply IH. now right.
Qed.

(** The literal [cs] followed by white space [ws] is read as the number that
    its digits spell. *)
Lemma int_plain cs vs ws :
  Forall2 (plainDigit base) cs vs -> cs <> [] ->
  Forall (fun c => isspace c = true) ws ->
  int (string_of_list_ascii (cs ++ ws)) base = Ok (valueOf base vs 0).
Proof.
  intros Hcs Hne Hws. unfold int.
  rewrite list_ascii_of_string_of_list_ascii.
  rewrite (strip_in_plain cs vs ws Hcs Hws).
  destruct Hcs as [| c v cs vs Hc Hcs]; [congruence |].
  pose proof Hc as (_ & _ & Hm & Hp & _).
  rewrite Hm, Hp.
  assert (parse_unsigned base (c :: cs)
          = parse_digits base (c :: cs) 0 false false) as ->.
  { unfold parse_unsigned. destruct Hcs as [| c' v' cs vs Hc' _];
      [reflexivity |].
    destruct Hc' as (_ & _ & _ & _ & Hb & _).
    rewrite Hb, andb_false_r. reflexivity. }
  rewrite (parse_digits_plain (c :: cs) (v :: vs)); [reflexivity | | ].
  - constructor; assumption.
  - left. discriminate.
Qed.

End PlainDigits.

Lemma plainDigit_lower d : 0 <= d < 16 -> plainDigit 16 (lowerDigit d) d.
Proof. intros H. each_digit d H; repeat split; reflexivity. Qed.

Lemma plainDigit_upper d : 0 <= d < 16 -> plainDigit 16 (upperDigit d) d.
Proof. intros H. each_digit d H; repeat split; reflexivity. Qed.

Lemma plainDigit_bit b : plainDigit 2 (bitChar b) (Z.b2z b).
Proof. destruct b; repeat split; reflexivity. Qed.

Lemma isspace_newline : Forall (fun c => isspace c = true) ["010"%char].
Proof. constructor; [reflexivity | constructor]. Qed.

(* ================================================================== *)
(** * The field extractors on well-formed lines *)

Section Extractors.

Variable w : Z.
Variable eol : bool.

(** ** The opcode: the first two digits, either case *)

Lemma getOpCode_lower_digits a b rest :
  0 <= a < 16 -> 0 <= b < 16 ->
  getOpCode (String (lowerDigit a) (String (lowerDigit b) rest))
  = Ok (hex (Z.shiftr (16 * a + b) 2)).
Proof.
  intros Ha. revert b. each_digit a Ha; intros b Hb; each_digit b Hb;
    reflexivity.
Qed.

Lemma getOpCode_upper_digits a b rest :
  0 <= a < 16 -> 0 <= b < 16 ->
  getOpCode (String (upperDigit a) (String (upperDigit b) rest))
  = Ok (hex (Z.shiftr (16 * a + b) 2)).
Proof.
  intros Ha. revert b. each_digit a Ha; intros b Hb; each_digit b Hb;
    reflexivity.
Qed.

Lemma getOpCode_lower : isWord w -> getOpCode (lowerLine w eol) = Ok (hex (opcodeOf w)).
Proof.
  intros Hw. rewrite (opcodeOf_nibbles w Hw).
  apply getOpCode_lower_digits; apply nibble_range; lia.
Qed.

Lemma getOpCode_upper : isWord w -> getOpCode (upperLine w eol) = Ok (hex (opcodeOf w)).
Proof.
  intros Hw. rewrite (opcodeOf_nibbles w Hw).
  apply getOpCode_upper_digits; apply nibble_range; lia.
Qed.

(** ** The registers: two digits through the table, five bits of them *)

Lemma getRSRegister_digits c0 a b rest index :
  0 <= a < 16 -> 0 <= b < 16 ->
  getRSRegister (String c0 (String (lowerDigit a) (String (lowerDigit b) rest)))
                index
  = Ok (registerName (Z.land (Z.shiftr (16 * a + b) 1) 31)).
Proof.
  intros Ha. revert b. each_digit a Ha; intros b Hb; each_digit b Hb;
    reflexivity.
Qed.

Lemma getRTRegister_digits c0 c1 a b rest index :
  0 <= a < 16 -> 0 <= b < 16 ->
  getRTRegister
    (String c0 (String c1 (String (lowerDigit a) (String (lowerDigit b) rest))))
    index
  = Ok (registerName (Z.land (16 * a + b) 31)).
Proof.
  intros Ha. revert b. each_digit a Ha; intros b Hb; each_digit b Hb;
    reflexivity.
Qed.

Lemma getRTypeRDRegister_digits c0 c1 c2 c3 a b rest index :
  0 <= a < 16 -> 0 <= b < 16 ->
  getRTypeRDRegister
    (String c0 (String c1 (String c2 (String c3
       (String (lowerDigit a) (String (lowerDigit b) rest))))))
    index
  = Ok (registerName (Z.shiftr (16 * a + b) 3)).
Proof.
  intros Ha. revert b. each_digit a Ha; intros b Hb; each_digit b Hb;
    reflexivity.
Qed.

Lemma getRTypeShamt_digits c0 c1 c2 c3 c4 a b rest :
  0 <= a < 16 -> 0 <= b < 16 ->
  getRTypeShamt
    (String c0 (String c1 (String c2 (String c3 (String c4
       (String (lowerDigit a) (String (lowerDigit b) rest)))))))
  = Ok (str (Z.land (Z.shiftr (16 * a + b) 2) 31)).
Proof.
  intros Ha. revert b. each_digit a Ha; intros b Hb; each_digit b Hb;
    reflexivity.
Qed.

Lemma getRSRegister_lower index :
  getRSRegister (lowerLine w eol) index = Ok (registerName (rsOf w)).
Proof.
  rewrite rsOf_nibbles.
  apply getRSRegister_digits; apply nibble_range; lia.
Qed.

Lemma getRTRegister_lower index :
  getRTRegister (lowerLine w eol) index = Ok (registerName (rtOf w)).
Proof.
  rewrite rtOf_nibbles.
  apply getRTRegister_digits; apply nibble_range; lia.
Qed.

Lemma getRTypeRDRegister_lower index :
  getRTypeRDRegister (lowerLine w eol) index = Ok (registerName (rdOf w)).
Proof.
  rewrite rdOf_nibbles.
  apply getRTypeRDRegister_digits; apply nibble_range; lia.
Qed.

Lemma getRTypeShamt_lower :
  getRTypeShamt (lowerLine w eol) = Ok (str (shamtOf w)).
Proof.
  rewrite shamtOf_nibbles.
  apply getRTypeShamt_digits; apply nibble_range; lia.
Qed.

End Extractors.

(** ** The immediate and the function code: four digits *)

Lemma hexToBinLookup_lower d :
  0 <= d < 16 ->
  get hexToBinLookup (String (lowerDigit d) "") = Some (fourBits d).
Proof. intros H. each_digit d H; reflexivity. Qed.

Lemma fourBits_value d :
  0 <= d < 16 ->
  d = 8 * Z.b2z (Z.testbit d 3) + 4 * Z.b2z (Z.testbit d 2)
      + 2 * Z.b2z (Z.testbit d 1) + Z.b2z (Z.testbit d 0).
Proof. intros H. each_digit d H; reflexivity. Qed.

Lemma immOf_nibbles w :
  immOf w = 4096 * nibble w 3 + 256 * nibble w 2 + 16 * nibble w 1
            + nibble w 0.
Proof. to_divmod. Z.to_euclidean_division_equations. lia. Qed.

Lemma getITypeImmediate_lower w eol :
  getITypeImmediate (lowerLine w eol) = Ok (str (immOf w)).
Proof.
  assert (forall k, 0 <= k -> 0 <= nibble w k < 16) as Hn
      by (intros; now apply nibble_range).
  unfold getITypeImmediate, lookupAt, index, lowerLine, hexWord.
  cbn [String.append String.get Py.bind].
  rewrite !hexToBinLookup_lower by (apply Hn; lia).
  cbn [add Py.bind String.append fourBits].
  match goal with
  | |- context [int ?s BIN_BASE] =>
      change s with
        (string_of_list_ascii
           (map bitChar
              [Z.testbit (nibble w 3) 3; Z.testbit (nibble w 3) 2;
               Z.testbit (nibble w 3) 1; Z.testbit (nibble w 3) 0;
               Z.testbit (nibble w 2) 3; Z.testbit (nibble w 2) 2;
               Z.testbit (nibble w 2) 1; Z.testbit (nibble w 2) 0;
               Z.testbit (nibble w 1) 3; Z.testbit (nibble w 1) 2;
               Z.testbit (nibble w 1) 1; Z.testbit (nibble w 1) 0;
               Z.testbit (nibble w 0) 3; Z.testbit (nibble w 0) 2;
               Z.testbit (nibble w 0) 1; Z.testbit (nibble w 0) 0] ++ []))
  end.
  erewrite int_plain;
    [ | repeat (constructor; [apply plainDigit_bit |]); constructor
      | discriminate | constructor ].
  cbn [Py.bind]. f_equal. f_equal.
  pose proof (fourBits_value (nibble w 3) (Hn 3 ltac:(lia))) as E3.
  pose proof (fourBits_value (nibble w 2) (Hn 2 ltac:(lia))) as E2.
  pose proof (fourBits_value (nibble w 1) (Hn 1 ltac:(lia))) as E1.
  pose proof (fourBits_value (nibble w 0) (Hn 0 ltac:(lia))) as E0.
  rewrite immOf_nibbles.
  unfold valueOf, BIN_BASE. cbn [fold_left].
  repeat match goal with
         | |- context [Z.b2z ?b] =>
             let x := fresh "b" in
             let Hx := fresh in
             remember (Z.b2z b) as x eqn:Hx in *; clear Hx
         end.
  lia.
Qed.

Lemma function_digits digit w eol :
  (forall d, 0 <= d < 16 -> plainDigit 16 (digit d) d) ->
  exists n, int (lastFour (hexWord digit w ++ endOfLine eol)) HEX_BASE = Ok n
            /\ Z.land n 63 = functOf w.
Proof.
  intros Hd.
  assert (forall k, 0 <= k -> plainDigit 16 (digit (nibble w k)) (nibble w k))
    as Hn by (intros; apply Hd; now apply nibble_range).
  destruct eol.
  - exists (valueOf 16 [nibble w 2; nibble w 1; nibble w 0] 0). split.
    + apply (int_plain 16
               [digit (nibble w 2); digit (nibble w 1); digit (nibble w 0)]
               _ ["010"%char]).
      * repeat (constructor; [apply Hn; lia |]); constructor.
      * discriminate.
      * exact isspace_newline.
    + unfold valueOf, HEX_BASE. cbn [fold_left]. to_divmod.
      Z.to_euclidean_division_equations. lia.
  - exists (valueOf 16 [nibble w 3; nibble w 2; nibble w 1; nibble w 0] 0).
    split.
    + apply (int_plain 16
               [digit (nibble w 3); digit (nibble w 2); digit (nibble w 1);
                digit (nibble w 0)] _ []).
      * repeat (constructor; [apply Hn; lia |]); constructor.
      * discriminate.
      * constructor.
    + unfold valueOf, HEX_BASE. cbn [fold_left]. to_divmod.
      Z.to_euclidean_division_equations. lia.
Qed.

(** The function code of a line selects the R-type instruction, or stops
    the run when the table does not have it. *)
Lemma getRTypeFunction_word digit w eol index :
  (forall d, 0 <= d < 16 -> plainDigit 16 (digit d) d) ->
  getRTypeFunction (hexWord digit w ++ endOfLine eol) index
  = match get rOpcodes (hex (functOf w)) with
    | None => errorOut (hexWord digit w ++ endOfLine eol) index
    | Some name => Ok name
    end.
Proof.
  intros Hd.
  destruct (function_digits digit w eol Hd) as (n & Hn & Hf).
  unfold getRTypeFunction. fold (lastFour (hexWord digit w ++ endOfLine eol)).
  rewrite Hn. cbn [Py.bind]. rewrite Hf. reflexivity.
Qed.

Lemma getRTypeFunction_lower w eol index :
  getRTypeFunction (lowerLine w eol) index
  = match get rOpcodes (hex (functOf w)) with
    | None => errorOut (lowerLine w eol) index
    | Some name => Ok name
    end.
Proof. apply getRTypeFunction_word, plainDigit_lower. Qed.

Lemma getRTypeFunction_upper w eol index :
  getRTypeFunction (upperLine w eol) index
  = match get rOpcodes (hex (functOf w)) with
    | None => errorOut (upperLine w eol) index
    | Some name => Ok name
    end.
Proof. apply getRTypeFunction_word, plainDigit_upper. Qed.

(* ================================================================== *)
(** * Decimal text of the immediates and offsets *)

Lemma decimal_all : forallb decimalChecked (upto 65536) = true.
Proof. vm_cast_no_check (eq_refl true). Qed.

Lemma int_str_immediate r : 0 <= r < 65536 -> int (str r) 10 = Ok r.
Proof.
  intros Hr. apply result_eqb_Z.
  exact (upto_spec _ _ decimal_all r Hr).
Qed.

Lemma odd_all : forallb oddChecked (upto 16384) = true.
Proof. vm_cast_no_check (eq_refl true). Qed.

Lemma signed_odd r :
  32768 <= r < 65536 -> Z.odd r = true ->
  exists tcm,
    twosCM (str r) = Ok tcm
    /\ getSignedInteger tcm = Ok (str (r - 65536))
    /\ int (str (r - 65536)) 10 = Ok (r - 65536).
Proof.
  intros Hr Hodd.
  assert (exists k, r = 32769 + 2 * k /\ 0 <= k < 16384) as (k & -> & Hk).
  { exists ((r - 32769) / 2).
    rewrite Z.odd_spec in Hodd. destruct Hodd as [m Hm].
    subst r. replace (2 * m + 1 - 32769) with ((m - 16384) * 2) by lia.
    rewrite Z.div_mul by lia. lia. }
  pose proof (upto_spec _ _ odd_all k Hk) as H.
  unfold oddChecked in H. apply andb_true_iff in H as [H1 H2].
  apply result_eqb_string in H1. apply result_eqb_Z in H2.
  destruct (twosCM (str (32769 + 2 * k))) as [tcm | m | e];
    simpl in H1; try discriminate.
  exists tcm. auto.
Qed.

Lemma result_eqb_string_refl (x : result string) :
  result_eqb String.eqb x x = true.
Proof. destruct x as [a | m | []]; simpl; auto using String.eqb_refl. Qed.

Lemma even_all : forallb evenChecked (upto 16384) = true.
Proof. vm_cast_no_check (eq_refl true). Qed.

(** No even immediate with the sign bit set is converted to [r - 65536]. *)
Lemma signed_even r :
  32768 <= r < 65536 -> Z.even r = true ->
  (tcm <- twosCM (str r) ;; getSignedInteger tcm) <> Ok (str (r - 65536)).
Proof.
  intros Hr Heven.
  assert (exists k, r = 32768 + 2 * k /\ 0 <= k < 16384) as (k & -> & Hk).
  { rewrite Z.even_spec in Heven. destruct Heven as [m Hm].
    exists (m - 16384). lia. }
  pose proof (upto_spec _ _ even_all k Hk) as H.
  unfold evenChecked in H. apply negb_true_iff in H.
  intros Heq. rewrite Heq, result_eqb_string_refl in H. discriminate H.
Qed.

Lemma address_all : forallb addressChecked (upto 65536) = true.
Proof. vm_cast_no_check (eq_refl true). Qed.

(** The address text of an address below [16 ^ 4] is its four digits, with
    zeros in front when the number is small. *)
Lemma hexAddress_four_digits n :
  0 <= n < 65536 -> hexAddress n = fourDigits n.
Proof.
  intros Hn. apply String.eqb_eq.
  exact (upto_spec _ _ address_all n Hn).
Qed.

(* ================================================================== *)
(** * One iteration on a well-formed line *)

Section Steps.

Variable w : Z.
Variable eol : bool.
Hypothesis Hword : isWord w.

Lemma branch_opcode :
  isBranch w ->
  String.eqb (hex (opcodeOf w)) "0x0" = false
  /\ get iOpcodes (hex (opcodeOf w)) = Some (branchName w)
  /\ (branchName w = "beq" \/ branchName w = "bne").
Proof.
  unfold branchName. intros [H | H]; rewrite H; repeat split; auto.
Qed.

(** A [beq] or [bne]: the label of the pending slot when the slot is this
    one, otherwise the branch with its registers and its immediate. *)
Lemma step_branch index st :
  isBranch w ->
  step index (lowerLine w eol) st
  = if index =? checkIndex st
    then Ok (appendLine st (labelLine (tempAddress st)))
    else branch (branchName w) (registerName (rtOf w))
                (registerName (rsOf w)) (str (immOf w)) index st.
Proof.
  intros Hb. destruct (branch_opcode Hb) as (H0 & Hget & Hname).
  unfold step.
  rewrite (getOpCode_lower w eol Hword). cbn [Py.bind].
  rewrite H0, Hget. unfold has_key. rewrite Hget. cbn [negb Py.bind].
  rewrite getRSRegister_lower, getRTRegister_lower, getITypeImmediate_lower.
  cbn [Py.bind].
  destruct Hname as [-> | ->]; reflexivity.
Qed.

Lemma sign_limit : int "1000000000000000" BIN_BASE = Ok 32768.
Proof. reflexivity. Qed.

(** The forward path of [branch]. *)
Lemma branch_forward func rt rs r index st :
  0 <= r < 32768 ->
  branch func rt rs (str r) index st
  = Ok (mkState
          (listQ st
           ++ [line4 func rt rs (labelRef (hexAddress ((index + r) * 4 + 4)))])
          (hexAddress ((index + r) * 4 + 4)) (index + r)).
Proof.
  intros Hr. unfold branch.
  rewrite int_str_immediate by lia. rewrite sign_limit. cbn [Py.bind].
  destruct (Z.geb_spec r 32768) as [Hge | Hlt]; [lia | reflexivity].
Qed.

(** The backward path of [branch], for an odd immediate and a buffer that
    has a line at the destination. *)
Lemma branch_backward func rt rs r index st there :
  32768 <= r < 65536 -> Z.odd r = true ->
  nth_error (listQ st) (Z.to_nat (Z.max 0 (index + (r - 65536)))) = Some there ->
  let destination := Z.max 0 (index + (r - 65536)) in
  let addressText := hexAddress (destination * 4) in
  branch func rt rs (str r) index st
  = Ok (mkState
          ((if startswith there "Addr"
            then listQ st
            else insert (listQ st) destination (labelLine addressText))
           ++ [line4 func rt rs (labelRef addressText)])
          (tempAddress st) (checkIndex st)).
Proof.
  intros Hr Hodd Hthere destination addressText.
  destruct (signed_odd r Hr Hodd) as (tcm & Htcm & Hsigned & Hint).
  unfold branch.
  rewrite int_str_immediate by lia. rewrite sign_limit. cbn [Py.bind].
  destruct (Z.geb_spec r 32768) as [Hge | Hlt]; [| lia].
  rewrite Htcm. cbn [Py.bind]. rewrite Hsigned. cbn [Py.bind].
  rewrite Hint. cbn [Py.bind].
  subst destination addressText.
  assert ((if index + (r - 65536) <? 0 then 0 else index + (r - 65536))
          = Z.max 0 (index + (r - 65536))) as ->.
  { destruct (Z.ltb_spec (index + (r - 65536)) 0); lia. }
  unfold item. rewrite Hthere. cbn [Py.bind]. reflexivity.
Qed.

End Steps.

(* ================================================================== *)
(** * Words that are not branches *)

Lemma branchOnly_all : forallb branchOnlyChecked (upto 64) = true.
Proof. vm_compute. reflexivity. Qed.

(** Only the opcodes 4 and 5 are [beq] and [bne]. *)
Lemma plain_opcode w func :
  isWord w -> ~ isBranch w ->
  get iOpcodes (hex (opcodeOf w)) = Some func ->
  String.eqb func "beq" || String.eqb func "bne" = false.
Proof.
  intros Hw Hnb Hget.
  pose proof (upto_spec _ _ branchOnly_all _ (opcodeOf_range w Hw)) as H.
  unfold branchOnlyChecked in H. rewrite Hget in H.
  destruct (String.eqb func "beq" || String.eqb func "bne"); [| reflexivity].
  exfalso. apply Hnb. unfold isBranch.
  apply orb_true_iff in H. rewrite !Z.eqb_eq in H. exact H.
Qed.

Lemma emit_nothing st : emit st [] = st.
Proof. destruct st; unfold emit; simpl. now rewrite app_nil_r. Qed.

Lemma plainLines_rendered w ls :
  plainLines w = Some ls -> (length ls <= 1)%nat /\ Forall rendered ls.
Proof.
  assert (forall a b c d, rendered (line4 a b c d)) as Hr4
      by (intros; eexists; reflexivity).
  assert (forall a b c d, rendered (lineMem a b c d)) as HrM
      by (intros; eexists; reflexivity).
  unfold plainLines.
  destruct (String.eqb (hex (opcodeOf w)) "0x0").
  - destruct (get rOpcodes (hex (functOf w))) as [func |]; [| discriminate].
    destruct (String.eqb func "srl" || String.eqb func "sll");
      intros [= <-]; (split; [simpl; lia | repeat constructor; apply Hr4]).
  - destruct (get iOpcodes (hex (opcodeOf w))) as [func |].
    + destruct (String.eqb func "sw" || String.eqb func "lw");
        intros [= <-];
        (split; [simpl; lia
                | repeat constructor; first [apply HrM | apply Hr4]]).
    + intros [= <-]. split; [simpl; lia | constructor].
Qed.

(** A word that is not a branch is decoded without a look at the slot or at
    the state. *)
Lemma step_plain w eol index st :
  isWord w -> ~ isBranch w ->
  step index (lowerLine w eol) st
  = match plainLines w with
    | Some ls => Ok (emit st ls)
    | None => errorOut (lowerLine w eol) index
    end.
Proof.
  intros Hw Hnb.
  unfold step, plainLines. rewrite (getOpCode_lower w eol Hw). cbn [Py.bind].
  destruct (String.eqb (hex (opcodeOf w)) "0x0").
  - rewrite getRTypeFunction_lower.
    destruct (get rOpcodes (hex (functOf w))) as [func |]; [| reflexivity].
    cbn [Py.bind].
    rewrite getRTypeRDRegister_lower, getRSRegister_lower,
      getRTRegister_lower, getRTypeShamt_lower. cbn [Py.bind].
    destruct (String.eqb func "srl" || String.eqb func "sll"); reflexivity.
  - destruct (get iOpcodes (hex (opcodeOf w))) as [func |] eqn:Hget.
    + unfold has_key. rewrite Hget. cbn [negb Py.bind].
      rewrite getRSRegister_lower, getRTRegister_lower,
        getITypeImmediate_lower. cbn [Py.bind].
      rewrite (plain_opcode w func Hw Hnb Hget).
      destruct (String.eqb func "sw" || String.eqb func "lw"); reflexivity.
    + now rewrite emit_nothing.
Qed.

(** A word whose opcode is neither zero nor in the table leaves no trace:
    the iteration ends without a line and without an error. *)
Lemma step_unknown_opcode w eol index st :
  isWord w -> opcodeOf w <> 0 ->
  get iOpcodes (hex (opcodeOf w)) = None ->
  step index (lowerLine w eol) st = Ok st.
Proof.
  intros Hw Hnz Hget.
  unfold step. rewrite (getOpCode_lower w eol Hw). cbn [Py.bind].
  destruct (String.eqb_spec (hex (opcodeOf w)) "0x0") as [Heq | _].
  - exfalso. apply Hnz.
    rewrite <- (HexString.to_Z_of_Z (opcodeOf w)).
    unfold hex in Heq. now rewrite Heq.
  - now rewrite Hget.
Qed.

(* ================================================================== *)
(** * Unknown opcodes *)

(** C1 (the code departs from it).  A word whose primary opcode is neither
    zero nor one of the 17 of the table should stop the run.  The guard that
    calls [errorOut] sits inside the branch that is entered only when the
    opcode is in the table, so the word [fc000000] (opcode 63) is passed over
    in silence: the run goes on and writes the lines of the other words. *)
Theorem unknown_opcode_is_skipped :
  lowerLine 0xfc000000 true = "fc000000" ++ newline
  /\ opcodeOf 0xfc000000 = 63
  /\ get iOpcodes (hex 63) = None
  /\ step 1 (lowerLine 0xfc000000 true) (mkState ["first"] "" 0)
     = Ok (mkState ["first"] "" 0)
  /\ main [lowerLine 0x01095020 true; lowerLine 0xfc000000 true;
           lowerLine 0x012a5822 true]
     = Ok [tab ++ "add, $t2, $t0, $t1"; tab ++ "sub, $t3, $t1, $t2"].
Proof. repeat split; reflexivity. Qed.

(* ================================================================== *)
(** * The signed offset *)

(** C2 (the code departs from it).  The conversion of a raw immediate with
    the sign bit set should give [r - 65536].  It does for odd values, such
    as [0xFFF9] that gives [-7]; for the even value [0xFFFA] it gives [-3]
    where [-6] is due, and for [0x8000] it raises [ValueError]: [strip]
    removes the zeros at the end of the binary text as well as the prefix,
    and the final [+ 1] is a decimal addition on that text. *)
Theorem even_immediate_conversion :
  (tcm <- twosCM (str 0xFFF9) ;; getSignedInteger tcm) = Ok (str (-7))
  /\ (tcm <- twosCM (str 0xFFFA) ;; getSignedInteger tcm) = Ok (str (-3))
  /\ 0xFFFA - 65536 = -6
  /\ twosCM (str 0xFFFA) = Ok "100000000000011"
  /\ (tcm <- twosCM (str 0x8000) ;; getSignedInteger tcm) = Raise ValueError.
Proof. repeat split; reflexivity. Qed.

(* ================================================================== *)
(** * Branches *)

(** C4.  A [beq]/[bne] at slot [index], which is not the pending slot, with
    a raw immediate below 32768: the destination is [index + r], the address
    text is the four-digit hexadecimal text of [destination * 4 + 4], the
    pending label becomes this destination and this text whatever it was
    before, and the line of the branch, which refers to [Addr_] and the
    text, is appended. *)
Theorem forward_branch w eol index st :
  isWord w -> isBranch w -> immOf w < 32768 -> index <> checkIndex st ->
  let destination := index + immOf w in
  let addressText := hexAddress (destination * 4 + 4) in
  step index (lowerLine w eol) st
  = Ok (mkState
          (listQ st
           ++ [line4 (branchName w) (registerName (rtOf w))
                     (registerName (rsOf w)) (labelRef addressText)])
          addressText destination).
Proof.
  intros Hw Hb Hr Hi destination addressText.
  rewrite (step_branch w eol Hw index st Hb).
  destruct (Z.eqb_spec index (checkIndex st)) as [Heq | _]; [contradiction |].
  apply branch_forward.
  pose proof (immOf_range w). lia.
Qed.

(** Two forward branches in a row, at slots 1 and 2: the second replaces the
    pending label of the first. *)
Lemma forward_branch_witness :
  step 1 (lowerLine 0x10000002 true) (mkState ["Addr_:"] "" 0)
  = Ok (mkState ["Addr_:"; tab ++ "beq, $zero, $zero, Addr_0010"] "0010" 3)
  /\ step 2 (lowerLine 0x11090003 true)
          (mkState ["Addr_:"; tab ++ "beq, $zero, $zero, Addr_0010"] "0010" 3)
     = Ok (mkState ["Addr_:"; tab ++ "beq, $zero, $zero, Addr_0010";
                    tab ++ "beq, $t1, $t0, Addr_0018"] "0018" 5).
Proof.
  split.
  - apply (forward_branch 0x10000002 true 1 (mkState ["Addr_:"] "" 0)).
    + unfold isWord. lia.
    + left. reflexivity.
    + vm_compute. reflexivity.
    + simpl. lia.
  - apply (forward_branch 0x11090003 true 2
             (mkState ["Addr_:"; tab ++ "beq, $zero, $zero, Addr_0010"]
                      "0010" 3)).
    + unfold isWord. lia.
    + left. reflexivity.
    + vm_compute. reflexivity.
    + simpl. lia.
Defined.

(** C3 as it is stated does not hold where the branch sits on the pending
    slot: the [bne] with raw immediate [0xFFFF] at slot 2, which the [beq]
    of slot 1 has made the pending slot, gets no label spliced at slot 1 and
    no line of its own; the label of the pending slot is appended instead. *)
Lemma backward_branch_on_pending_slot :
  let w := 0x1400ffff in
  let before :=
    mkState [tab ++ "add, $t2, $t0, $t1";
             tab ++ "beq, $zero, $zero, Addr_000c"] "000c" 2 in
  let after :=
    [tab ++ "add, $t2, $t0, $t1"; tab ++ "beq, $zero, $zero, Addr_000c";
     "Addr_000c:"] in
  loop 0 [lowerLine 0x01095020 true; lowerLine 0x10000001 true] initial
  = Ok before
  /\ isWord w /\ isBranch w /\ 32768 <= immOf w
  /\ Z.max 0 (2 + (immOf w - 65536)) = 1
  /\ hexAddress (1 * 4) = "0004"
  /\ step 2 (lowerLine w true) before = Ok (mkState after "000c" 2)
  /\ ~ In (labelLine "0004") after
  /\ ~ In (line4 "bne" "$zero" "$zero" (labelRef "0004")) after.
Proof.
  cbv zeta. split; [reflexivity |].
  split; [unfold isWord; lia |].
  split; [right; reflexivity |].
  split; [vm_compute; discriminate |].
  split; [reflexivity |].
  split; [reflexivity |].
  split; [reflexivity |].
  split; intros Hin; vm_compute in Hin;
    repeat (destruct Hin as [Hin | Hin]; [discriminate Hin |]); exact Hin.
Qed.

(** C3, amended.  A [beq]/[bne] at slot [index], which is not the pending
    slot, with an odd raw immediate [r >= 32768], when the buffer has a line
    at the destination: the destination is [index + (r - 65536)], or 0 when
    that is negative; the address text is the four-digit hexadecimal text of
    [destination * 4]; the label line is spliced at the destination unless
    the line there begins with [Addr]; the line of the branch, which refers
    to [Addr_] and the text, is appended; the pending label is kept. *)
Theorem backward_branch w eol index st there :
  isWord w -> isBranch w -> 32768 <= immOf w -> Z.odd (immOf w) = true ->
  index <> checkIndex st ->
  let destination := Z.max 0 (index + (immOf w - 65536)) in
  let addressText := hexAddress (destination * 4) in
  nth_error (listQ st) (Z.to_nat destination) = Some there ->
  step index (lowerLine w eol) st
  = Ok (mkState
          ((if startswith there "Addr"
            then listQ st
            else insert (listQ st) destination (labelLine addressText))
           ++ [line4 (branchName w) (registerName (rtOf w))
                     (registerName (rsOf w)) (labelRef addressText)])
          (tempAddress st) (checkIndex st)).
Proof.
  intros Hw Hb Hr Hodd Hi destination addressText Hthere.
  rewrite (step_branch w eol Hw index st Hb).
  destruct (Z.eqb_spec index (checkIndex st)) as [Heq | _]; [contradiction |].
  apply branch_backward; [| exact Hodd | exact Hthere].
  pose proof (immOf_range w). lia.
Qed.

(** The [bne] of slot 10 with raw immediate [0xFFF9]: a label at position 3
    with the address text [000c]. *)
Lemma backward_branch_witness :
  step 10 (lowerLine 0x1509fff9 true)
       (mkState ["s0"; "s1"; "s2"; "s3"; "s4"; "s5"; "s6"; "s7"; "s8"; "s9"]
                "" 0)
  = Ok (mkState ["s0"; "s1"; "s2"; "Addr_000c:"; "s3"; "s4"; "s5"; "s6";
                 "s7"; "s8"; "s9"; tab ++ "bne, $t1, $t0, Addr_000c"] "" 0).
Proof.
  apply (backward_branch 0x1509fff9 true 10
           (mkState ["s0"; "s1"; "s2"; "s3"; "s4"; "s5"; "s6"; "s7"; "s8";
                     "s9"] "" 0) "s3").
  - unfold isWord. lia.
  - right. reflexivity.
  - vm_compute. discriminate.
  - reflexivity.
  - simpl. lia.
  - reflexivity.
Defined.

(* ================================================================== *)
(** * The pending label *)

(** C5.  On the pending slot a [beq]/[bne] gives the label line of the
    pending address and nothing else: the branch is neither resolved nor
    rendered, and the pending label stays.  A word that is not a branch
    never gives a label there: it keeps the pending label and appends at
    most one line, which is a rendered instruction. *)
Theorem pending_label_discharge w eol index st :
  isWord w -> index = checkIndex st ->
  (isBranch w ->
   step index (lowerLine w eol) st
   = Ok (mkState (listQ st ++ [labelLine (tempAddress st)])
                 (tempAddress st) (checkIndex st)))
  /\ (~ isBranch w ->
      forall st',
        step index (lowerLine w eol) st = Ok st' ->
        tempAddress st' = tempAddress st
        /\ checkIndex st' = checkIndex st
        /\ exists ls, listQ st' = (listQ st ++ ls)%list
                      /\ (length ls <= 1)%nat
                      /\ Forall rendered ls
                      /\ ~ In (labelLine (tempAddress st)) ls).
Proof.
  intros Hw Hi. split.
  - intros Hb. rewrite (step_branch w eol Hw index st Hb).
    rewrite Hi, Z.eqb_refl. reflexivity.
  - intros Hnb st' Hstep.
    rewrite (step_plain w eol index st Hw Hnb) in Hstep.
    destruct (plainLines w) as [ls |] eqn:Hls; [| discriminate Hstep].
    injection Hstep as <-. cbn [emit tempAddress checkIndex listQ].
    destruct (plainLines_rendered w ls Hls) as [Hlen Hrend].
    repeat split. exists ls. repeat split; try assumption.
    intros Hin. rewrite Forall_forall in Hrend.
    destruct (Hrend _ Hin) as [text Htext]. discriminate Htext.
Qed.

(** On the pending slot 3 the [bne] gives the label of the pending address,
    and the [add] gives its own line. *)
Lemma pending_label_discharge_witness :
  step 3 (lowerLine 0x1509fff9 true) (mkState ["s0"; "s1"; "s2"] "0010" 3)
  = Ok (mkState ["s0"; "s1"; "s2"; "Addr_0010:"] "0010" 3)
  /\ exists ls,
      ["s0"; "s1"; "s2"; tab ++ "add, $t2, $t0, $t1"]
      = (["s0"; "s1"; "s2"] ++ ls)%list
      /\ (length ls <= 1)%nat
      /\ Forall rendered ls
      /\ ~ In "Addr_0010:" ls.
Proof.
  pose proof (pending_label_discharge 0x1509fff9 true 3
                (mkState ["s0"; "s1"; "s2"] "0010" 3)) as [Hbranch _].
  { unfold isWord. lia. }
  { reflexivity. }
  pose proof (pending_label_discharge 0x01095020 true 3
                (mkState ["s0"; "s1"; "s2"] "0010" 3)) as [_ Hplain].
  { unfold isWord. lia. }
  { reflexivity. }
  split.
  - apply Hbranch. right. reflexivity.
  - destruct (Hplain
                ltac:(intros [H | H]; vm_compute in H; discriminate H)
                (mkState ["s0"; "s1"; "s2"; tab ++ "add, $t2, $t0, $t1"]
                         "0010" 3)
                eq_refl) as (_ & _ & Hlines).
    exact Hlines.
Defined.

(** C10.  The pending label starts as slot 0 with an empty address, so a
    [beq]/[bne] in the first line of the input meets the test of the pending
    slot: the line [Addr_:] is appended, and the branch is neither resolved
    nor rendered. *)
Theorem first_line_branch w eol rest :
  isWord w -> isBranch w ->
  initial = mkState [] "" 0
  /\ step 0 (lowerLine w eol) initial = Ok (mkState ["Addr_:"] "" 0)
  /\ main (lowerLine w eol :: rest)
     = (st <- loop 1 rest (mkState ["Addr_:"] "" 0) ;; Ok (listQ st)).
Proof.
  intros Hw Hb.
  assert (step 0 (lowerLine w eol) initial = Ok (mkState ["Addr_:"] "" 0))
    as Hstep by (rewrite (step_branch w eol Hw 0 initial Hb); reflexivity).
  repeat split; [exact Hstep |].
  unfold main. cbn [loop]. rewrite Hstep. reflexivity.
Qed.

(** A [bne] in the first line, then an [add]. *)
Lemma first_line_branch_witness :
  main [lowerLine 0x1509fff9 true; lowerLine 0x01095020 true]
  = Ok ["Addr_:"; tab ++ "add, $t2, $t0, $t1"].
Proof.
  destruct (first_line_branch 0x1509fff9 true [lowerLine 0x01095020 true])
    as (_ & _ & Hmain).
  - unfold isWord. lia.
  - right. reflexivity.
  - rewrite Hmain. reflexivity.
Defined.

(* ================================================================== *)
(** * Decoding the same word twice *)




(* ================================================================== *)
(** * Splicing into the buffer *)

Section Splice.

Context {A : Type}.
Implicit Types (l : list A) (x : A) (p k : nat).

Lemma insert_here l x p :
  (p <= length l)%nat -> nth_error (insert l (Z.of_nat p) x) p = Some x.
Proof.
  intros Hp. unfold insert. rewrite Nat2Z.id.
  rewrite nth_error_app2 by (rewrite firstn_length_le; lia).
  rewrite firstn_length_le by lia. now rewrite Nat.sub_diag.
Qed.

Lemma insert_before l x p k :
  (k < p)%nat -> (p <= length l)%nat ->
  nth_error (insert l (Z.of_nat p) x) k = nth_error l k.
Proof.
  intros Hk Hp. unfold insert. rewrite Nat2Z.id.
  rewrite nth_error_app1 by (rewrite firstn_length_le; lia).
  rewrite nth_error_firstn.
  destruct (Nat.ltb_spec k p); [reflexivity | lia].
Qed.

Lemma insert_after l x p k :
  (p <= k)%nat -> (p <= length l)%nat ->
  nth_error (insert l (Z.of_nat p) x) (S k) = nth_error l k.
Proof.
  intros Hk Hp. unfold insert. rewrite Nat2Z.id.
  rewrite nth_error_app2 by (rewrite firstn_length_le; lia).
  rewrite firstn_length_le by lia.
  replace (S k - p)%nat with (S (k - p)) by lia. cbn [nth_error].
  rewrite nth_error_skipn. f_equal. lia.
Qed.

End Splice.

Ltac run_step H :=
  repeat match type of H with
         | Py.bind ?m _ = _ =>
             destruct m eqn:?; cbn [Py.bind] in H; try discriminate H
         | (if ?b then _ else _) = _ => destruct b eqn:?
         | match ?x with _ => _ end = _ => destruct x eqn:?
         | errorOut _ _ = Ok _ => discriminate H
         end.

Lemma branch_change func rt rs im index st st' :
  branch func rt rs im index st = Ok st' ->
  bufferChange (listQ st) (listQ st').
Proof.
  intros H. unfold branch in H.
  destruct (int im 10) as [r | |]; cbn [Py.bind] in H; try discriminate H.
  rewrite sign_limit in H. cbn [Py.bind] in H.
  destruct (r >=? 32768).
  - destruct (twosCM im) as [tcm | |]; cbn [Py.bind] in H;
      try discriminate H.
    destruct (getSignedInteger tcm) as [signedInt | |]; cbn [Py.bind] in H;
      try discriminate H.
    destruct (int signedInt 10) as [d | |]; cbn [Py.bind] in H;
      try discriminate H.
    set (tempIndex := if index + d <? 0 then 0 else index + d) in H.
    assert (0 <= tempIndex) as Hpos
        by (subst tempIndex; destruct (Z.ltb_spec (index + d) 0); lia).
    unfold item in H.
    destruct (nth_error (listQ st) (Z.to_nat tempIndex)) as [there |] eqn:Hnth;
      cbn [Py.bind] in H; [| discriminate H].
    injection H as <-. cbn [listQ].
    destruct (startswith there "Addr").
    + eapply Appended; reflexivity.
    + rewrite <- (Z2Nat.id tempIndex Hpos).
      eapply Spliced; [| reflexivity].
      apply nth_error_Some. congruence.
  - injection H as <-. cbn [listQ]. eapply Appended; reflexivity.
Qed.

Lemma step_change index value st st' :
  step index value st = Ok st' -> bufferChange (listQ st) (listQ st').
Proof.
  intros H. unfold step in H. run_step H;
    try (injection H as <-; cbn [appendLine listQ];
         first [ solve [eapply Appended; reflexivity]
               | apply Appended with (ls := []); now rewrite app_nil_r ]).
  eapply branch_change; eassumption.
Qed.

(** The lines of the buffer after a change: those before the splice stay,
    those from the splice on move down by one, and a label sits at the
    splice. *)
Lemma change_keeps_lines q q' :
  bufferChange q q' ->
  exists p : nat,
    (p <= length q)%nat
    /\ (forall k line,
          nth_error q k = Some line ->
          nth_error q' (if (k <? p)%nat then k else S k) = Some line)
    /\ ((p < length q)%nat ->
        exists addr, nth_error q' p = Some (labelLine addr)).
Proof.
  intros [ls -> | p addr msg Hp ->].
  - exists (length q). split; [lia |]. split; [| lia].
    intros k line Hk.
    assert (k < length q)%nat as Hlt by (apply nth_error_Some; congruence).
    destruct (Nat.ltb_spec k (length q)); [| lia].
    now rewrite nth_error_app1.
  - assert (length (insert q (Z.of_nat p) (labelLine addr)) = S (length q))
      as Hlen.
    { unfold insert. rewrite Nat2Z.id, length_app. cbn [length].
      rewrite firstn_length_le, length_skipn by lia. lia. }
    exists p. split; [lia |]. split.
    + intros k line Hk.
      assert (k < length q)%nat as Hlt by (apply nth_error_Some; congruence).
      rewrite nth_error_app1 by (destruct (Nat.ltb_spec k p); lia).
      destruct (Nat.ltb_spec k p).
      * rewrite insert_before by lia. exact Hk.
      * rewrite insert_after by lia. exact Hk.
    + intros _. exists addr.
      rewrite nth_error_app1 by lia. apply insert_here. lia.
Qed.

(** Over a whole run, a line that is in the buffer stays in it with its
    text, at its position or further down. *)
Lemma loop_keeps_lines hex_values :
  forall index st st',
    loop index hex_values st = Ok st' ->
    forall k line,
      nth_error (listQ st) k = Some line ->
      exists k', (k <= k')%nat /\ nth_error (listQ st') k' = Some line.
Proof.
  induction hex_values as [| value rest IH]; intros index st st' Hloop k line Hk.
  - injection Hloop as <-. exists k. split; [lia | exact Hk].
  - cbn [loop] in Hloop.
    destruct (step index value st) as [st1 | |] eqn:Hstep;
      cbn [Py.bind] in Hloop; try discriminate Hloop.
    destruct (change_keeps_lines _ _ (step_change _ _ _ _ Hstep))
      as (p & _ & Hkeep & _).
    destruct (IH _ _ _ Hloop _ _ (Hkeep k line Hk)) as (k' & Hle & Hk').
    exists k'. split; [| exact Hk'].
    destruct (k <? p)%nat; lia.
Qed.

(** C6.  An iteration never rewrites a line that is in the buffer.  When it
    splices a label at position [p], the lines before [p] stay where they
    are and every line from [p] on moves down by one position, with the same
    text; an iteration that only appends is the case where [p] is the
    length of the buffer. *)
Theorem splice_keeps_lines index value st st' :
  step index value st = Ok st' ->
  exists p : nat,
    (p <= length (listQ st))%nat
    /\ (forall k line,
          nth_error (listQ st) k = Some line ->
          nth_error (listQ st') (if (k <? p)%nat then k else S k) = Some line)
    /\ ((p < length (listQ st))%nat ->
        exists addr, nth_error (listQ st') p = Some (labelLine addr)).
Proof.
  intros H. apply change_keeps_lines. exact (step_change index value st st' H).
Qed.

(** The [bne] of slot 10 that goes back by 7: the label is spliced at
    position 3 and the lines [s3] to [s9] move down by one. *)
Lemma splice_keeps_lines_witness :
  exists p : nat,
    (p <= 10)%nat
    /\ (forall k line,
          nth_error ["s0"; "s1"; "s2"; "s3"; "s4"; "s5"; "s6"; "s7"; "s8";
                     "s9"] k = Some line ->
          nth_error ["s0"; "s1"; "s2"; "Addr_000c:"; "s3"; "s4"; "s5"; "s6";
                     "s7"; "s8"; "s9"; tab ++ "bne, $t1, $t0, Addr_000c"]
                    (if (k <? p)%nat then k else S k) = Some line)
    /\ ((p < 10)%nat ->
        exists addr,
          nth_error ["s0"; "s1"; "s2"; "Addr_000c:"; "s3"; "s4"; "s5"; "s6";
                     "s7"; "s8"; "s9"; tab ++ "bne, $t1, $t0, Addr_000c"] p
          = Some (labelLine addr)).
Proof.
  exact (splice_keeps_lines 10 (lowerLine 0x1509fff9 true)
           (mkState ["s0"; "s1"; "s2"; "s3"; "s4"; "s5"; "s6"; "s7"; "s8";
                     "s9"] "" 0)
           (mkState ["s0"; "s1"; "s2"; "Addr_000c:"; "s3"; "s4"; "s5"; "s6";
                     "s7"; "s8"; "s9"; tab ++ "bne, $t1, $t0, Addr_000c"]
                    "" 0)
           eq_refl).
Defined.

(* ================================================================== *)
(** * Registers *)

Lemma hexToBinLookup_values key bits :
  get hexToBinLookup key = Some bits ->
  exists d, 0 <= d < 16 /\ bits = fourBits d.
Proof.
  unfold hexToBinLookup. cbn [get].
  repeat match goal with
         | |- (if String.eqb key ?k then _ else _) = _ -> _ =>
             destruct (String.eqb key k)
         end;
    intros [= <-];
    first [ exists 0; split; [lia | reflexivity]
          | exists 1; split; [lia | reflexivity]
          | exists 2; split; [lia | reflexivity]
          | exists 3; split; [lia | reflexivity]
          | exists 4; split; [lia | reflexivity]
          | exists 5; split; [lia | reflexivity]
          | exists 6; split; [lia | reflexivity]
          | exists 7; split; [lia | reflexivity]
          | exists 8; split; [lia | reflexivity]
          | exists 9; split; [lia | reflexivity]
          | exists 10; split; [lia | reflexivity]
          | exists 11; split; [lia | reflexivity]
          | exists 12; split; [lia | reflexivity]
          | exists 13; split; [lia | reflexivity]
          | exists 14; split; [lia | reflexivity]
          | exists 15; split; [lia | reflexivity] ].
Qed.

(** Any five bits cut out of the eight bits of two digits are a key of the
    dictionary of registers. *)
Lemma five_of_eight_bits a b :
  0 <= a < 16 -> 0 <= b < 16 ->
  get registerDictionary (slice 0 5 (fourBits a ++ fourBits b)) <> None
  /\ get registerDictionary (slice 2 7 (fourBits a ++ fourBits b)) <> None
  /\ get registerDictionary (slice_from 3 (fourBits a ++ fourBits b)) <> None.
Proof.
  intros Ha. revert b. each_digit a Ha; intros b Hb; each_digit b Hb;
    repeat split; discriminate.
Qed.

Ltac never_exits :=
  intros msg; unfold lookupAt, index;
  repeat match goal with
         | |- context [String.get ?k ?s] =>
             destruct (String.get k s); cbn [Py.bind]; try discriminate
         end;
  repeat match goal with
         | |- context [get hexToBinLookup ?k] =>
             let H := fresh "Hbits" in
             destruct (get hexToBinLookup k) eqn:H; cbn [add Py.bind];
             try discriminate
         end;
  repeat match goal with
         | H : get hexToBinLookup _ = Some _ |- _ =>
             apply hexToBinLookup_values in H;
             destruct H as (? & ? & ->)
         end;
  match goal with
  | Ha : 0 <= ?a < 16, Hb : 0 <= ?b < 16 |- _ =>
      destruct (five_of_eight_bits a b Ha Hb) as (H05 & H27 & H3);
      destruct (five_of_eight_bits b a Hb Ha) as (H05' & H27' & H3')
  end;
  match goal with
  | |- context [get registerDictionary ?k] =>
      destruct (get registerDictionary k); [discriminate | congruence]
  end.

Lemma getRSRegister_never_exits value index :
  forall msg, getRSRegister value index <> SysExit msg.
Proof. unfold getRSRegister. never_exits. Qed.

Lemma getRTRegister_never_exits value index :
  forall msg, getRTRegister value index <> SysExit msg.
Proof. unfold getRTRegister. never_exits. Qed.

Lemma getRTypeRDRegister_never_exits value index :
  forall msg, getRTypeRDRegister value index <> SysExit msg.
Proof. unfold getRTypeRDRegister. never_exits. Qed.

Lemma register_all : forallb registerChecked (upto 32) = true.
Proof. vm_compute. reflexivity. Qed.

Lemma field_ranges w :
  0 <= rsOf w < 32 /\ 0 <= rtOf w < 32 /\ 0 <= rdOf w < 32.
Proof. to_divmod. Z.to_euclidean_division_equations. lia. Qed.

(** C8.  Every register number from 0 to 31 is a key of the dictionary, with
    one of the 32 names as its value; on every line of eight digits each of
    the three lookups returns the name of the register that the field of the
    word numbers; and on no string at all does a lookup reach its call of
    [errorOut]. *)
Theorem register_resolution_total :
  (forall n, 0 <= n < 32 ->
     get registerDictionary (fiveBits n) = Some (registerName n)
     /\ In (registerName n) abiNames)
  /\ (forall w eol index,
        getRSRegister (lowerLine w eol) index = Ok (registerName (rsOf w))
        /\ getRTRegister (lowerLine w eol) index = Ok (registerName (rtOf w))
        /\ getRTypeRDRegister (lowerLine w eol) index
           = Ok (registerName (rdOf w))
        /\ 0 <= rsOf w < 32 /\ 0 <= rtOf w < 32 /\ 0 <= rdOf w < 32)
  /\ (forall value index msg,
        getRSRegister value index <> SysExit msg
        /\ getRTRegister value index <> SysExit msg
        /\ getRTypeRDRegister value index <> SysExit msg).
Proof.
  split; [| split].
  - intros n Hn.
    pose proof (upto_spec _ _ register_all n Hn) as H.
    unfold registerChecked in H.
    destruct (get registerDictionary (fiveBits n)) as [name |];
      [| discriminate H].
    apply andb_true_iff in H as [Hname Hin].
    apply String.eqb_eq in Hname. subst name. split; [reflexivity |].
    apply existsb_exists in Hin as (name & Hin & Heq).
    apply String.eqb_eq in Heq. now subst name.
  - intros w eol index.
    pose proof (field_ranges w) as (Hs & Ht & Hd).
    repeat split; try lia.
    + apply getRSRegister_lower.
    + apply getRTRegister_lower.
    + apply getRTypeRDRegister_lower.
  - intros value index msg. repeat split.
    + apply getRSRegister_never_exits.
    + apply getRTRegister_never_exits.
    + apply getRTypeRDRegister_never_exits.
Qed.

(** Register 29 is the stack pointer. *)
Lemma register_resolution_total_witness :
  get registerDictionary "11101" = Some "$sp" /\ In "$sp" abiNames.
Proof.
  destruct register_resolution_total as (Hkey & _ & _).
  apply (Hkey 29). lia.
Defined.

(* ================================================================== *)
(** * Upper-case digits *)

(** The table has lower-case keys only: an upper-case digit is found when it
    is one of [0]..[9], and only then. *)
Lemma upper_digit d :
  0 <= d < 16 ->
  if d <? 10
  then upperDigit d = lowerDigit d
  else get hexToBinLookup (String (upperDigit d) "") = None.
Proof. intros H. each_digit d H; reflexivity. Qed.

Section UpperCase.

Variable w : Z.
Variable eol : bool.

(** A lookup through the table on the upper-case line: the digits that are
    read are their lower-case selves when they are decimal, and the lookup
    stops with [TypeError] when one of them is a letter. *)
Ltac through_table getter when_decimal :=
  unfold upperLine, hexWord, decimalAt;
  repeat match goal with
         | |- context [nibble w ?k <? 10] =>
             let H := fresh "Hd" in
             generalize (upper_digit (nibble w k)
                           (nibble_range w k ltac:(lia)));
             destruct (nibble w k <? 10); intros H
         end;
  cbn [andb];
  first
    [ repeat match goal with
             | H : upperDigit _ = lowerDigit _ |- _ => rewrite H; clear H
             end;
      solve [when_decimal]
    | repeat match goal with
             | H : upperDigit _ = lowerDigit _ |- _ => clear H
             end;
      unfold getter, lookupAt, index;
      cbn [String.append String.get Py.bind];
      repeat match goal with
             | H : get hexToBinLookup _ = None |- _ => rewrite H; clear H
             end;
      repeat match goal with
             | |- context [get hexToBinLookup ?k] =>
                 destruct (get hexToBinLookup k); cbn [add Py.bind]
             end;
      reflexivity ].

Lemma getRSRegister_upper index :
  getRSRegister (upperLine w eol) index
  = if decimalAt w 6 && decimalAt w 5
    then Ok (registerName (rsOf w)) else Raise TypeError.
Proof.
  through_table getRSRegister
    ltac:(rewrite rsOf_nibbles;
          apply getRSRegister_digits; apply nibble_range; lia).
Qed.

Lemma getRTRegister_upper index :
  getRTRegister (upperLine w eol) index
  = if decimalAt w 5 && decimalAt w 4
    then Ok (registerName (rtOf w)) else Raise TypeError.
Proof.
  through_table getRTRegister
    ltac:(rewrite rtOf_nibbles;
          apply getRTRegister_digits; apply nibble_range; lia).
Qed.

Lemma getRTypeRDRegister_upper index :
  getRTypeRDRegister (upperLine w eol) index
  = if decimalAt w 3 && decimalAt w 2
    then Ok (registerName (rdOf w)) else Raise TypeError.
Proof.
  through_table getRTypeRDRegister
    ltac:(rewrite rdOf_nibbles;
          apply getRTypeRDRegister_digits; apply nibble_range; lia).
Qed.

Lemma getRTypeShamt_upper :
  getRTypeShamt (upperLine w eol)
  = if decimalAt w 2 && decimalAt w 1
    then Ok (str (shamtOf w)) else Raise TypeError.
Proof.
  through_table getRTypeShamt
    ltac:(rewrite shamtOf_nibbles;
          apply getRTypeShamt_digits; apply nibble_range; lia).
Qed.

Lemma getITypeImmediate_upper :
  getITypeImmediate (upperLine w eol)
  = if decimalAt w 3 && decimalAt w 2 && decimalAt w 1 && decimalAt w 0
    then Ok (str (immOf w)) else Raise TypeError.
Proof.
  through_table getITypeImmediate
    ltac:(rewrite <- (getITypeImmediate_lower w eol); reflexivity).
Qed.

End UpperCase.

Lemma sameOutcome_refl a : sameOutcome a a.
Proof. destruct a; simpl; auto. Qed.

(** C7 as it is stated does not hold: the word [012a5822] is decoded in
    lower case, and its upper-case spelling [012A5822] stops the run with a
    [TypeError], because the digit [A] is read through [hexToBinLookup],
    which has the keys [a]..[f] only. *)
Lemma uppercase_letter_not_decoded :
  upperLine 0x012a5822 true = "012A5822" ++ newline
  /\ step 0 (lowerLine 0x012a5822 true) initial
     = Ok (mkState [tab ++ "sub, $t3, $t1, $t2"] "" 0)
  /\ step 0 (upperLine 0x012a5822 true) initial = Raise TypeError
  /\ main [upperLine 0x012a5822 true] = Raise TypeError.
Proof. repeat split; reflexivity. Qed.

(** C7, amended.  The upper-case spelling of a word either has the outcome
    of the lower-case spelling, with the same lines and the same state, or
    stops the run with a [TypeError] at a lookup in [hexToBinLookup]; it has
    the outcome of the lower-case spelling whenever the seven digits after
    the first are all decimal. *)
Theorem uppercase_spelling w eol index st :
  isWord w ->
  (step index (upperLine w eol) st = Raise TypeError
   \/ sameOutcome (step index (upperLine w eol) st)
                  (step index (lowerLine w eol) st))
  /\ ((forall k, 0 <= k < 7 -> decimalAt w k = true) ->
      sameOutcome (step index (upperLine w eol) st)
                  (step index (lowerLine w eol) st)).
Proof.
  intros Hw.
  unfold step.
  rewrite (getOpCode_upper w eol Hw), (getOpCode_lower w eol Hw).
  cbn [Py.bind].
  destruct (String.eqb (hex (opcodeOf w)) "0x0").
  - rewrite getRTypeFunction_upper, getRTypeFunction_lower.
    destruct (get rOpcodes (hex (functOf w))) as [func |].
    + cbn [Py.bind].
      rewrite getRTypeRDRegister_upper, getRSRegister_upper,
        getRTRegister_upper, getRTypeShamt_upper.
      rewrite getRTypeRDRegister_lower, getRSRegister_lower,
        getRTRegister_lower, getRTypeShamt_lower.
      split.
      * repeat match goal with
               | |- context [decimalAt w ?k] => destruct (decimalAt w k)
               end; cbn [andb Py.bind];
          first [ left; reflexivity | right; apply sameOutcome_refl ].
      * intros Hdec.
        rewrite !Hdec by lia. cbn [andb Py.bind]. apply sameOutcome_refl.
    + split; [right |]; simpl; auto.
  - destruct (get iOpcodes (hex (opcodeOf w))) as [func |] eqn:Hget.
    + unfold has_key. rewrite Hget. cbn [negb Py.bind].
      rewrite getRSRegister_upper, getRTRegister_upper,
        getITypeImmediate_upper.
      rewrite getRSRegister_lower, getRTRegister_lower,
        getITypeImmediate_lower.
      split.
      * repeat match goal with
               | |- context [decimalAt w ?k] => destruct (decimalAt w k)
               end; cbn [andb Py.bind];
          first [ left; reflexivity | right; apply sameOutcome_refl ].
      * intros Hdec.
        rewrite !Hdec by lia. cbn [andb Py.bind]. apply sameOutcome_refl.
    + split; [right |]; simpl; auto.
Qed.

(** The word [a1280004] has its only letter in the first digit: it is
    decoded in upper case as in lower case. *)
Lemma uppercase_spelling_witness :
  upperLine 0xa1280004 true = "A1280004" ++ newline
  /\ step 0 (upperLine 0xa1280004 true) initial
     = Ok (mkState [tab ++ "sb, $t0, $t1, 4"] "" 0)
  /\ sameOutcome (step 0 (upperLine 0xa1280004 true) initial)
                 (step 0 (lowerLine 0xa1280004 true) initial).
Proof.
  split; [reflexivity |]. split; [reflexivity |].
  destruct (uppercase_spelling 0xa1280004 true 0 initial) as [_ Hsame].
  - unfold isWord. lia.
  - apply Hsame. intros k Hk.
    assert (k = 0 \/ k = 1 \/ k = 2 \/ k = 3 \/ k = 4 \/ k = 5 \/ k = 6)
      as [-> | [-> | [-> | [-> | [-> | [-> | ->]]]]]] by lia;
      reflexivity.
Defined.

(* ================================================================== *)
(** * Further properties of the field extractors *)

(** X1.  The opcode of a line is the text of the six bits 31 to 26 of the word,
    in either spelling of its digits. *)
Theorem opcode_of_line w eol :
  isWord w ->
  getOpCode (lowerLine w eol) = Ok (hex (opcodeOf w))
  /\ getOpCode (upperLine w eol) = Ok (hex (opcodeOf w))
  /\ 0 <= opcodeOf w < 64.
Proof.
  intros Hw. split; [| split].
  - apply getOpCode_lower, Hw.
  - apply getOpCode_upper, Hw.
  - apply opcodeOf_range, Hw.
Qed.

Lemma opcode_of_line_witness :
  getOpCode (lowerLine 0xac850010 true) = Ok "0x2b"
  /\ getOpCode (upperLine 0xac850010 false) = Ok "0x2b".
Proof.
  destruct (opcode_of_line 0xac850010 true) as (Hl & _ & _);
    [unfold isWord; lia |].
  destruct (opcode_of_line 0xac850010 false) as (_ & Hu & _);
    [unfold isWord; lia |].
  split; [exact Hl | exact Hu].
Defined.

(** X2.  The function of an R-type line is looked up under the six bits 5 to 0
    of the word, in either spelling and with or without the end of line;
    when the table does not have them the run stops with the message that
    names the line and its slot. *)
Theorem function_of_line w eol index :
  (forall name,
     get rOpcodes (hex (functOf w)) = Some name ->
     getRTypeFunction (lowerLine w eol) index = Ok name
     /\ getRTypeFunction (upperLine w eol) index = Ok name)
  /\ (get rOpcodes (hex (functOf w)) = None ->
      getRTypeFunction (lowerLine w eol) index
      = SysExit ("Cannot disassemble " ++ lowerLine w eol ++ " at line "
                 ++ str index)
      /\ getRTypeFunction (upperLine w eol) index
         = SysExit ("Cannot disassemble " ++ upperLine w eol ++ " at line "
                    ++ str index)).
Proof.
  rewrite getRTypeFunction_lower, getRTypeFunction_upper.
  split.
  - intros name ->. split; reflexivity.
  - intros ->. split; reflexivity.
Qed.

(** X3.  The shift amount and the immediate are rendered as the decimal text of
    the bits 10 to 6 and of the bits 15 to 0: an immediate is never
    rendered with a sign. *)
Theorem shamt_and_immediate_of_line w eol :
  getRTypeShamt (lowerLine w eol) = Ok (str (shamtOf w))
  /\ getITypeImmediate (lowerLine w eol) = Ok (str (immOf w))
  /\ 0 <= shamtOf w < 32
  /\ 0 <= immOf w < 65536.
Proof.
  split; [apply getRTypeShamt_lower |].
  split; [apply getITypeImmediate_lower |].
  split; [| apply immOf_range].
  to_divmod. Z.to_euclidean_division_equations. lia.
Qed.

(** X4.  On the upper-case spelling each lookup through [hexToBinLookup] gives
    what it gives in lower case when the two digits it reads (four for the
    immediate) are decimal, and raises [TypeError] when one is a letter. *)
Theorem table_lookups_in_upper_case w eol index :
  getRSRegister (upperLine w eol) index
  = (if decimalAt w 6 && decimalAt w 5
     then Ok (registerName (rsOf w)) else Raise TypeError)
  /\ getRTRegister (upperLine w eol) index
     = (if decimalAt w 5 && decimalAt w 4
        then Ok (registerName (rtOf w)) else Raise TypeError)
  /\ getRTypeRDRegister (upperLine w eol) index
     = (if decimalAt w 3 && decimalAt w 2
        then Ok (registerName (rdOf w)) else Raise TypeError)
  /\ getRTypeShamt (upperLine w eol)
     = (if decimalAt w 2 && decimalAt w 1
        then Ok (str (shamtOf w)) else Raise TypeError)
  /\ getITypeImmediate (upperLine w eol)
     = (if decimalAt w 3 && decimalAt w 2 && decimalAt w 1 && decimalAt w 0
        then Ok (str (immOf w)) else Raise TypeError).
Proof.
  repeat split.
  - apply getRSRegister_upper.
  - apply getRTRegister_upper.
  - apply getRTypeRDRegister_upper.
  - apply getRTypeShamt_upper.
  - apply getITypeImmediate_upper.
Qed.

(* ================================================================== *)
(** * Further properties of the conversion *)

Lemma conversion_all : forallb conversionChecked (upto 32767) = true.
Proof. vm_cast_no_check (eq_refl true). Qed.

(** X5.  What [getSignedInteger] makes of [twosCM] for a raw immediate above
    32768: [r - 65536] divided by the largest power of two that divides
    [r], which is the greatest common divisor of [r] and [2 ^ 15]. *)
Theorem conversion_of_immediate r :
  32768 < r < 65536 ->
  (tcm <- twosCM (str r) ;; getSignedInteger tcm)
  = Ok (str ((r - 65536) / Z.gcd r (2 ^ 15))).
Proof.
  intros Hr. apply result_eqb_string.
  replace r with (32769 + (r - 32769)) by lia.
  apply (upto_spec _ _ conversion_all). lia.
Qed.

Lemma conversion_of_immediate_witness :
  (tcm <- twosCM "65528" ;; getSignedInteger tcm) = Ok "-1".
Proof.
  apply (conversion_of_immediate 65528). lia.
Defined.

Lemma function_of_line_witness :
  getRTypeFunction (lowerLine 0x012a5822 true) 0 = Ok "sub"
  /\ getRTypeFunction (upperLine 0x012a5822 true) 0 = Ok "sub"
  /\ getRTypeFunction (lowerLine 0x0109503f false) 4
     = SysExit "Cannot disassemble 0109503f at line 4".
Proof.
  destruct (function_of_line 0x012a5822 true 0) as [Hknown _].
  destruct (Hknown "sub" eq_refl) as [Hl Hu].
  destruct (function_of_line 0x0109503f false 4) as [_ Hunknown].
  destruct (Hunknown eq_refl) as [He _].
  split; [exact Hl |]. split; [exact Hu | exact He].
Defined.

(** X6.  [getSignedInteger] reads its text as a sign and a magnitude: the first
    character is the sign, the binary digits after it are the magnitude,
    and the result is the decimal text of the magnitude, negated unless the
    sign is [0].  Without a sign there is an [IndexError], without digits
    after the sign a [ValueError]. *)
Theorem sign_and_magnitude bits :
  bits <> [] ->
  let magnitude := valueOf 2 (map Z.b2z bits) 0 in
  let digits := string_of_list_ascii (map bitChar bits) in
  getSignedInteger (String "0" digits) = Ok (str magnitude)
  /\ getSignedInteger (String "1" digits) = Ok (str (- magnitude))
  /\ getSignedInteger "" = Raise IndexError
  /\ getSignedInteger "1" = Raise ValueError.
Proof.
  intros Hne magnitude digits.
  assert (int digits BIN_BASE = Ok magnitude) as Hint.
  { subst digits magnitude.
    rewrite <- (app_nil_r (map bitChar bits)).
    apply int_plain.
    - clear Hne. induction bits as [| b bits IH]; cbn [map]; constructor;
        [apply plainDigit_bit | exact IH].
    - destruct bits; [congruence | discriminate].
    - constructor. }
  repeat split.
  - unfold getSignedInteger. cbn [index String.get Py.bind Ascii.eqb Bool.eqb].
    change (slice_from 1 (String "0" digits)) with digits.
    rewrite Hint. reflexivity.
  - unfold getSignedInteger. cbn [index String.get Py.bind Ascii.eqb Bool.eqb].
    change (slice_from 1 (String "1" digits)) with digits.
    rewrite Hint. cbn [Py.bind]. do 2 f_equal. lia.
Qed.

Lemma sign_and_magnitude_witness :
  getSignedInteger "0101" = Ok "5" /\ getSignedInteger "1101" = Ok "-5".
Proof.
  destruct (sign_and_magnitude [true; false; true]) as (Hpos & Hneg & _);
    [discriminate |].
  split; [exact Hpos | exact Hneg].
Defined.

(* ================================================================== *)
(** * Words built from their fields *)

Lemma encodeR_fields rs rt rd shamt funct :
  isRegister rs -> isRegister rt -> isRegister rd ->
  0 <= shamt < 32 -> 0 <= funct < 64 ->
  isWord (encodeR rs rt rd shamt funct)
  /\ opcodeOf (encodeR rs rt rd shamt funct) = 0
  /\ rsOf (encodeR rs rt rd shamt funct) = rs
  /\ rtOf (encodeR rs rt rd shamt funct) = rt
  /\ rdOf (encodeR rs rt rd shamt funct) = rd
  /\ shamtOf (encodeR rs rt rd shamt funct) = shamt
  /\ functOf (encodeR rs rt rd shamt funct) = funct.
Proof.
  unfold isRegister, encodeR. intros Hrs Hrt Hrd Hshamt Hfunct.
  repeat split; to_divmod; Z.to_euclidean_division_equations; lia.
Qed.

Lemma encodeI_fields op rs rt imm :
  isRegister rs -> isRegister rt -> 0 <= op < 64 -> 0 <= imm < 65536 ->
  isWord (encodeI op rs rt imm)
  /\ opcodeOf (encodeI op rs rt imm) = op
  /\ rsOf (encodeI op rs rt imm) = rs
  /\ rtOf (encodeI op rs rt imm) = rt
  /\ immOf (encodeI op rs rt imm) = imm.
Proof.
  unfold isRegister, encodeI. intros Hrs Hrt Hop Himm.
  repeat split; to_divmod; Z.to_euclidean_division_equations; lia.
Qed.

(** X7.  An R-type word built from its fields is rendered with the name of its
    function code and the names of its registers: destination, second
    source and shift amount for the two shifts, destination and the two
    sources for the others. *)
Theorem rtype_round_trip rs rt rd shamt funct name eol index st :
  isRegister rs -> isRegister rt -> isRegister rd ->
  0 <= shamt < 32 -> 0 <= funct < 64 ->
  get rOpcodes (hex funct) = Some name ->
  step index (lowerLine (encodeR rs rt rd shamt funct) eol) st
  = Ok (appendLine st
          (if String.eqb name "srl" || String.eqb name "sll"
           then line4 name (registerName rd) (registerName rt) (str shamt)
           else line4 name (registerName rd) (registerName rs)
                      (registerName rt))).
Proof.
  intros Hrs Hrt Hrd Hsh Hfn Hget.
  destruct (encodeR_fields rs rt rd shamt funct Hrs Hrt Hrd Hsh Hfn)
    as (Hw & Hop & Es & Et & Ed & Eh & Ef).
  rewrite step_plain; [| exact Hw | intros [H | H]; rewrite Hop in H; lia].
  unfold plainLines. rewrite Hop, Es, Et, Ed, Eh, Ef, Hget.
  change (String.eqb (hex 0) "0x0") with true. cbv iota.
  destruct (String.eqb name "srl" || String.eqb name "sll"); reflexivity.
Qed.

Lemma rtype_round_trip_witness :
  step 0 (lowerLine (encodeR 9 10 11 0 0x22) true) initial
  = Ok (mkState [tab ++ "sub, $t3, $t1, $t2"] "" 0)
  /\ step 0 (lowerLine (encodeR 0 8 8 2 0) true) initial
     = Ok (mkState [tab ++ "sll, $t0, $t0, 2"] "" 0).
Proof.
  split.
  - apply (rtype_round_trip 9 10 11 0 0x22 "sub" true 0 initial);
      unfold isRegister; try lia; reflexivity.
  - apply (rtype_round_trip 0 8 8 2 0 "sll" true 0 initial);
      unfold isRegister; try lia; reflexivity.
Defined.

(** X8.  An I-type word built from its fields, other than a branch, is rendered
    with the name of its opcode, the names of its registers and the decimal
    text of its immediate: [rt, imm(rs)] for [lw] and [sw], [rt, rs, imm]
    for the others. *)
Theorem itype_round_trip op rs rt imm name eol index st :
  isRegister rs -> isRegister rt -> 0 <= op < 64 -> 0 <= imm < 65536 ->
  get iOpcodes (hex op) = Some name ->
  name <> "beq" -> name <> "bne" ->
  step index (lowerLine (encodeI op rs rt imm) eol) st
  = Ok (appendLine st
          (if String.eqb name "sw" || String.eqb name "lw"
           then lineMem name (registerName rt) (str imm) (registerName rs)
           else line4 name (registerName rt) (registerName rs) (str imm))).
Proof.
  intros Hrs Hrt Hop Himm Hget Hbeq Hbne.
  destruct (encodeI_fields op rs rt imm Hrs Hrt Hop Himm)
    as (Hw & Eo & Es & Et & Ei).
  rewrite step_plain; [| exact Hw |].
  - unfold plainLines. rewrite Eo, Es, Et, Ei, Hget.
    destruct (String.eqb_spec (hex op) "0x0") as [E0 | _].
    + rewrite E0 in Hget. discriminate Hget.
    + destruct (String.eqb name "sw" || String.eqb name "lw"); reflexivity.
  - intros [H | H]; rewrite Eo in H; subst op;
      injection Hget as <-; congruence.
Qed.

Lemma itype_round_trip_witness :
  step 0 (lowerLine (encodeI 0x23 9 8 4) true) initial
  = Ok (mkState [tab ++ "lw, $t0, 4($t1)"] "" 0)
  /\ step 0 (lowerLine (encodeI 8 9 8 0xffff) true) initial
     = Ok (mkState [tab ++ "addi, $t0, $t1, 65535"] "" 0).
Proof.
  split.
  - apply (itype_round_trip 0x23 9 8 4 "lw" true 0 initial);
      unfold isRegister; try lia; try reflexivity; discriminate.
  - apply (itype_round_trip 8 9 8 0xffff "addi" true 0 initial);
      unfold isRegister; try lia; try reflexivity; discriminate.
Defined.

(* ================================================================== *)
(** * Runs *)

Lemma loop_app a :
  forall b index st,
    loop index (a ++ b) st
    = (st' <- loop index a st ;; loop (index + Z.of_nat (length a)) b st').
Proof.
  induction a as [| value a IH]; intros b index st.
  - cbn. now rewrite Z.add_0_r.
  - cbn [app loop length]. destruct (step index value st) as [st1 | |];
      cbn [Py.bind]; try reflexivity.
    rewrite IH.
    replace (index + Z.of_nat (S (length a)))
      with (index + 1 + Z.of_nat (length a)) by lia.
    reflexivity.
Qed.

Lemma emit_emit st ls ls' : emit (emit st ls) ls' = emit st (ls ++ ls').
Proof. unfold emit. cbn. now rewrite app_assoc. Qed.

Lemma loop_plain wes :
  Forall (fun we => isWord (fst we) /\ ~ isBranch (fst we)) wes ->
  forall ls index st,
    programLines (map fst wes) = Some ls ->
    loop index (map asLine wes) st = Ok (emit st ls).
Proof.
  induction 1 as [| [w eol] wes [Hw Hnb] _ IH]; intros ls index st Hls.
  - injection Hls as <-. cbn. now rewrite emit_nothing.
  - cbn [map fst programLines] in Hls. cbn [map loop].
    change (asLine (w, eol)) with (lowerLine w eol).
    cbn [fst] in Hw, Hnb.
    rewrite (step_plain w eol index st Hw Hnb).
    destruct (plainLines w) as [l |]; [| discriminate Hls].
    destruct (programLines (map fst wes)) as [ls' |] eqn:Hrest;
      [| discriminate Hls].
    injection Hls as <-. cbn [Py.bind].
    rewrite (IH ls' (index + 1) (emit st l) eq_refl).
    now rewrite emit_emit.
Qed.

Lemma programLines_length ws :
  forall ls, programLines ws = Some ls -> (length ls <= length ws)%nat.
Proof.
  induction ws as [| w ws IH]; intros ls Hls.
  - injection Hls as <-. cbn. lia.
  - cbn [programLines] in Hls.
    destruct (plainLines w) as [l |] eqn:Hl; [| discriminate Hls].
    destruct (programLines ws) as [ls' |]; [| discriminate Hls].
    injection Hls as <-.
    destruct (plainLines_rendered w l Hl) as [Hlen _].
    specialize (IH ls' eq_refl). rewrite length_app. cbn [length]. lia.
Qed.

(** X9.  The run over a list of lines that is cut in two: the run over the first
    part, then the run over the second from the slot and the state that the
    first has reached; an error in the first part is the error of the run. *)
Theorem run_of_concatenation a b index st :
  loop index (a ++ b) st
  = (st' <- loop index a st ;; loop (index + Z.of_nat (length a)) b st').
Proof. apply loop_app. Qed.

(** X10.  A program without branches, in which every function code is known, is
    rendered word by word whatever the slots: the output is the lines of
    its words in order, at most one for each word. *)
Theorem straight_line_program wes ls :
  Forall (fun we => isWord (fst we) /\ ~ isBranch (fst we)) wes ->
  programLines (map fst wes) = Some ls ->
  main (map asLine wes) = Ok ls
  /\ (length ls <= length wes)%nat
  /\ Forall rendered ls.
Proof.
  intros Hall Hls.
  split; [| split].
  - unfold main. rewrite (loop_plain wes Hall ls 0 initial Hls). reflexivity.
  - rewrite <- (length_map fst wes). now apply programLines_length.
  - clear Hall. revert ls Hls.
    induction (map fst wes) as [| w ws IH]; intros ls Hls.
    + injection Hls as <-. constructor.
    + cbn [programLines] in Hls.
      destruct (plainLines w) as [l |] eqn:Hl; [| discriminate Hls].
      destruct (programLines ws) as [ls' |]; [| discriminate Hls].
      injection Hls as <-. apply Forall_app. split.
      * now destruct (plainLines_rendered w l Hl).
      * now apply IH.
Qed.

Lemma straight_line_program_witness :
  main [lowerLine 0x8d280004 true; lowerLine 0x01095020 true;
        lowerLine 0xfc000000 true; lowerLine 0x00084080 false]
  = Ok [tab ++ "lw, $t0, 4($t1)"; tab ++ "add, $t2, $t0, $t1";
        tab ++ "sll, $t0, $t0, 2"].
Proof.
  refine (proj1 (straight_line_program
                   [(0x8d280004, true); (0x01095020, true);
                    (0xfc000000, true); (0x00084080, false)] _ _ eq_refl)).
  repeat constructor; try (unfold isWord; cbn [fst]; lia);
    intros [H | H]; vm_compute in H; discriminate H.
Defined.

(** X11.  An R-type word with an unknown function code stops the run where it
    stands: whatever comes after it, the run ends with the message that
    names the line and the number of the lines before it, and nothing is
    written. *)
Theorem unknown_function_stops_run pre w eol post st :
  loop 0 pre initial = Ok st ->
  isWord w -> opcodeOf w = 0 ->
  get rOpcodes (hex (functOf w)) = None ->
  main (pre ++ lowerLine w eol :: post)
  = SysExit ("Cannot disassemble " ++ lowerLine w eol ++ " at line "
             ++ str (Z.of_nat (length pre))).
Proof.
  intros Hpre Hw Hop Hfn.
  unfold main. rewrite loop_app, Hpre. cbn [Py.bind loop].
  rewrite step_plain; [| exact Hw | intros [H | H]; rewrite Hop in H; lia].
  unfold plainLines. rewrite Hop, Hfn. reflexivity.
Qed.

Lemma unknown_function_stops_run_witness :
  main [lowerLine 0x01095020 true; lowerLine 0x0109503f true;
        lowerLine 0x012a5822 true]
  = SysExit ("Cannot disassemble 0109503f" ++ newline ++ " at line 1").
Proof.
  apply (unknown_function_stops_run [lowerLine 0x01095020 true] 0x0109503f
           true [lowerLine 0x012a5822 true]
           (mkState [tab ++ "add, $t2, $t0, $t1"] "" 0)).
  - reflexivity.
  - unfold isWord. lia.
  - reflexivity.
  - reflexivity.
Defined.

(* ================================================================== *)
(** * Invariants of the loop *)

Lemma rendered_line4 a b c d : rendered (line4 a b c d).
Proof. eexists. reflexivity. Qed.

Lemma rendered_lineMem a b c d : rendered (lineMem a b c d).
Proof. eexists. reflexivity. Qed.

Lemma length_insert {A : Type} (l : list A) (p : nat) (x : A) :
  length (insert l (Z.of_nat p) x) = S (length l).
Proof.
  unfold insert. rewrite Nat2Z.id, length_app. cbn [length].
  rewrite length_firstn, length_skipn. lia.
Qed.

(** The lengths of the buffer before and after an iteration. *)
Lemma effect_length st st' :
  stepEffect st st' ->
  (length (listQ st) <= length (listQ st') <= length (listQ st) + 2)%nat
  /\ (st' = st \/ length (listQ st) < length (listQ st'))%nat.
Proof.
  intros [-> | msg _ -> | p addr msg _ _ -> | msg target _ ->];
    cbn [listQ appendLine]; rewrite ?length_app, ?length_insert;
    cbn [length]; (split; [lia |]); first [now left | right; lia].
Qed.

Lemma branch_effect func rt rs im index st st' :
  branch func rt rs im index st = Ok st' ->
  stepEffect st st' /\ (length (listQ st) < length (listQ st'))%nat.
Proof.
  intros H.
  enough (stepEffect st st' /\ st' <> st) as [He Hne].
  { split; [exact He |].
    destruct (proj2 (effect_length st st' He)); [contradiction | assumption]. }
  assert (forall st0 : State, (length (listQ st) < length (listQ st0))%nat ->
                      st0 <> st) as Hgrow
      by (intros st0 Hlt ->; lia).
  unfold branch in H.
  destruct (int im 10) as [r | |]; cbn [Py.bind] in H; try discriminate H.
  rewrite sign_limit in H. cbn [Py.bind] in H.
  destruct (r >=? 32768).
  - destruct (twosCM im) as [tcm | |]; cbn [Py.bind] in H;
      try discriminate H.
    destruct (getSignedInteger tcm) as [signedInt | |]; cbn [Py.bind] in H;
      try discriminate H.
    destruct (int signedInt 10) as [d | |]; cbn [Py.bind] in H;
      try discriminate H.
    set (tempIndex := if index + d <? 0 then 0 else index + d) in H.
    assert (0 <= tempIndex) as Hpos
        by (subst tempIndex; destruct (Z.ltb_spec (index + d) 0); lia).
    unfold item in H.
    destruct (nth_error (listQ st) (Z.to_nat tempIndex)) as [there |] eqn:Hnth;
      cbn [Py.bind] in H; [| discriminate H].
    injection H as <-.
    destruct (startswith there "Addr").
    + split; [| apply Hgrow; cbn [listQ]; rewrite length_app; cbn; lia].
      eapply OneLine; [left; apply rendered_line4 | reflexivity].
    + rewrite <- (Z2Nat.id tempIndex Hpos).
      split; [| apply Hgrow; cbn [listQ];
                rewrite length_app, length_insert; cbn; lia].
      eapply SplicedLine; [| apply rendered_line4 | reflexivity].
      apply nth_error_Some. congruence.
  - injection H as <-.
    split; [| apply Hgrow; cbn [listQ]; rewrite length_app; cbn; lia].
    eapply ForwardLine; [apply rendered_line4 | reflexivity].
Qed.

Lemma step_effect index value st st' :
  step index value st = Ok st' -> stepEffect st st'.
Proof.
  intros H. unfold step in H. run_step H;
    try (injection H as <-;
         first [ solve [eapply OneLine;
                        [left; apply rendered_line4 | reflexivity]]
               | solve [eapply OneLine;
                        [left; apply rendered_lineMem | reflexivity]]
               | solve [eapply OneLine;
                        [right; eexists; reflexivity | reflexivity]]
               | solve [apply Skipped; reflexivity] ]).
  exact (proj1 (branch_effect _ _ _ _ _ _ _ H)).
Qed.

(** A line whose opcode is known makes the buffer grow. *)
Lemma step_known_grows index value st st' :
  knownOpcode value ->
  step index value st = Ok st' ->
  (length (listQ st) < length (listQ st'))%nat.
Proof.
  intros (opcode & Hop & Hknown) H. unfold step in H.
  rewrite Hop in H. cbn [Py.bind] in H.
  assert (forall msg, length (listQ st) < length (listQ (appendLine st msg)))%nat
    as Hone by (intros; cbn [appendLine listQ]; rewrite length_app; cbn; lia).
  destruct Hknown as [-> | Hkey].
  - cbn [String.eqb Ascii.eqb Bool.eqb] in H.
    run_step H; injection H as <-; apply Hone.
  - unfold has_key in Hkey.
    destruct (String.eqb opcode "0x0").
    + run_step H; injection H as <-; apply Hone.
    + destruct (get iOpcodes opcode) as [func |]; [| discriminate Hkey].
      run_step H; try (injection H as <-; apply Hone).
      exact (proj2 (branch_effect _ _ _ _ _ _ _ H)).
Qed.

Lemma label_test line :
  wellShaped line -> (startswith line "Addr" = true <-> isLabelLine line).
Proof.
  intros [[text ->] | [addr ->]].
  - split; [discriminate |]. intros [addr H]. discriminate H.
  - split; [intros _; now exists addr | reflexivity].
Qed.

Lemma effect_shape st st' :
  stepEffect st st' ->
  Forall wellShaped (listQ st) -> Forall wellShaped (listQ st').
Proof.
  intros [-> | msg Hmsg -> | p addr msg _ Hmsg -> | msg target Hmsg ->] Hq;
    cbn [listQ appendLine].
  - exact Hq.
  - apply Forall_app. split; [exact Hq | now constructor].
  - apply Forall_app. split; [| constructor; [now left | constructor]].
    unfold insert. rewrite <- (firstn_skipn (Z.to_nat (Z.of_nat p))) in Hq.
    apply Forall_app in Hq as [Hbefore Hafter].
    apply Forall_app. split; [exact Hbefore |].
    constructor; [right; now exists addr | exact Hafter].
  - apply Forall_app. split; [exact Hq | constructor; [now left | constructor]].
Qed.

Lemma effect_pending st st' :
  stepEffect st st' -> pendingShape st -> pendingShape st'.
Proof.
  intros [-> | msg _ -> | p addr msg _ _ -> | msg target _ ->] Hp;
    try exact Hp.
  right. reflexivity.
Qed.

Lemma loop_invariant (P : State -> Prop) :
  (forall st st', stepEffect st st' -> P st -> P st') ->
  forall hex_values index st st',
    loop index hex_values st = Ok st' -> P st -> P st'.
Proof.
  intros Hstep hex_values.
  induction hex_values as [| value rest IH]; intros index st st' Hloop HP.
  - injection Hloop as <-. exact HP.
  - cbn [loop] in Hloop.
    destruct (step index value st) as [st1 | |] eqn:Hs;
      cbn [Py.bind] in Hloop; try discriminate Hloop.
    apply (IH _ _ _ Hloop).
    exact (Hstep _ _ (step_effect _ _ _ _ Hs) HP).
Qed.

(** X12.  Every line of the output of a run is the line of an instruction, which
    begins with a tab, or a label line [Addr_...:], whatever the input was;
    and the test by which a backward branch looks for a label that is
    already there, [startswith('Addr')], holds of the label lines and of no
    other line. *)
Theorem output_lines_shaped hex_values out :
  main hex_values = Ok out ->
  Forall (fun line =>
            wellShaped line
            /\ (startswith line "Addr" = true <-> isLabelLine line)) out.
Proof.
  intros H. unfold main in H.
  destruct (loop 0 hex_values initial) as [st | |] eqn:Hloop;
    cbn [Py.bind] in H; try discriminate H.
  injection H as <-.
  assert (Forall wellShaped (listQ st)) as Hshape.
  { apply (loop_invariant (fun s => Forall wellShaped (listQ s))
             effect_shape _ _ _ _ Hloop).
    constructor. }
  apply Forall_forall. intros line Hin.
  rewrite Forall_forall in Hshape.
  split; [now apply Hshape | apply label_test; now apply Hshape].
Qed.

Lemma output_lines_shaped_witness :
  Forall (fun line =>
            wellShaped line
            /\ (startswith line "Addr" = true <-> isLabelLine line))
         ["Addr_:"; tab ++ "add, $t2, $t0, $t1"].
Proof.
  exact (output_lines_shaped
           [lowerLine 0x1509fff9 true; lowerLine 0x01095020 true]
           ["Addr_:"; tab ++ "add, $t2, $t0, $t1"] eq_refl).
Defined.

Lemma loop_length hex_values :
  forall index st st',
    loop index hex_values st = Ok st' ->
    (length (listQ st') <= length (listQ st) + 2 * length hex_values)%nat
    /\ (Forall knownOpcode hex_values ->
        length (listQ st) + length hex_values <= length (listQ st'))%nat.
Proof.
  induction hex_values as [| value rest IH]; intros index st st' Hloop.
  - injection Hloop as <-. cbn [length]. split; [lia | intros _; lia].
  - cbn [loop] in Hloop.
    destruct (step index value st) as [st1 | |] eqn:Hs;
      cbn [Py.bind] in Hloop; try discriminate Hloop.
    destruct (IH _ _ _ Hloop) as [Hup Hlow].
    destruct (effect_length _ _ (step_effect _ _ _ _ Hs)) as [[_ Hle] _].
    cbn [length]. split; [lia |].
    intros Hknown. inversion Hknown as [| v r Hv Hr]; subst.
    pose proof (step_known_grows _ _ _ _ Hv Hs). specialize (Hlow Hr). lia.
Qed.

(** X13.  A run appends at most two lines for each line of the input; and when
    the opcode of every line is zero or one of the table, it appends at
    least one for each, so that the buffer has a line at every slot before
    the current one. *)
Theorem output_length hex_values out :
  main hex_values = Ok out ->
  (length out <= 2 * length hex_values)%nat
  /\ (Forall knownOpcode hex_values -> length hex_values <= length out)%nat.
Proof.
  intros H. unfold main in H.
  destruct (loop 0 hex_values initial) as [st | |] eqn:Hloop;
    cbn [Py.bind] in H; try discriminate H.
  injection H as <-.
  destruct (loop_length _ _ _ _ Hloop) as [Hup Hlow].
  cbn [initial listQ length] in Hup, Hlow. split; [lia |].
  intros Hk. specialize (Hlow Hk). lia.
Qed.

Lemma output_length_witness :
  (length ["Addr_:"; tab ++ "add, $t2, $t0, $t1"] <= 2 * 2)%nat
  /\ (Forall knownOpcode
             [lowerLine 0x1509fff9 true; lowerLine 0x01095020 true] ->
      2 <= length ["Addr_:"; tab ++ "add, $t2, $t0, $t1"])%nat.
Proof.
  exact (output_length
           [lowerLine 0x1509fff9 true; lowerLine 0x01095020 true]
           ["Addr_:"; tab ++ "add, $t2, $t0, $t1"] eq_refl).
Defined.

(** X14.  At every point of a run the pending label is the one of the start, slot
    0 with an empty text, or its text is the address text of four times its
    slot plus four: the slot and the text never part. *)
Theorem pending_label_shape hex_values index st st' :
  loop index hex_values st = Ok st' ->
  pendingShape st -> pendingShape st'.
Proof. apply (loop_invariant pendingShape effect_pending). Qed.

Lemma pending_label_shape_witness :
  pendingShape (mkState ["Addr_:"; tab ++ "beq, $zero, $zero, Addr_0010"]
                        "0010" 3).
Proof.
  apply (pending_label_shape
           [lowerLine 0x10000002 true; lowerLine 0x10000002 true] 0 initial).
  - reflexivity.
  - left. split; reflexivity.
Defined.

(* ================================================================== *)
(** * Lines that are not words *)

Lemma strip_in_all p l : Forall (fun c => p c = true) l -> strip_in p l = [].
Proof.
  intros H. unfold strip_in.
  rewrite <- (app_nil_r l) at 1. rewrite lstrip_in_drops by exact H.
  reflexivity.
Qed.

Lemma take_blank n :
  forall s, blank s -> blank (take n s).
Proof.
  unfold blank. induction n as [| n IH]; intros s Hs.
  - destruct s; constructor.
  - destruct s as [| c s]; [constructor |].
    cbn [take list_ascii_of_string]. inversion Hs; subst.
    constructor; [assumption | now apply IH].
Qed.

Lemma getOpCode_blank value : blank value -> getOpCode value = Raise ValueError.
Proof.
  intros Hb. unfold getOpCode, int, slice. cbn [drop].
  rewrite (strip_in_all isspace _ (take_blank _ _ Hb)). reflexivity.
Qed.

(** X15.  A blank line, empty or made of white space such as the end of line
    alone, stops the run with a [ValueError] wherever it stands: the opcode
    cannot be read, and nothing is written. *)
Theorem blank_line_stops_run pre value post st :
  loop 0 pre initial = Ok st ->
  blank value ->
  main (pre ++ value :: post) = Raise ValueError.
Proof.
  intros Hpre Hb. unfold main.
  rewrite loop_app, Hpre. cbn [Py.bind loop]. unfold step.
  rewrite (getOpCode_blank value Hb). reflexivity.
Qed.

Lemma blank_line_stops_run_witness :
  main [lowerLine 0x01095020 true; newline; lowerLine 0x012a5822 true]
  = Raise ValueError.
Proof.
  apply (blank_line_stops_run [lowerLine 0x01095020 true] newline
           [lowerLine 0x012a5822 true]
           (mkState [tab ++ "add, $t2, $t0, $t1"] "" 0)).
  - reflexivity.
  - repeat constructor.
Defined.

Lemma index_beyond s :
  forall k, (String.length s <= k)%nat -> index s k = Raise IndexError.
Proof.
  unfold index. induction s as [| c s IH]; intros k Hk.
  - destruct k; reflexivity.
  - destruct k as [| k]; [cbn in Hk; lia |].
    cbn [String.get]. apply IH. cbn in Hk. lia.
Qed.

Lemma short_no_shamt value x :
  (String.length value < 7)%nat -> getRTypeShamt value <> Ok x.
Proof.
  intros Hlen. unfold getRTypeShamt, lookupAt.
  rewrite (index_beyond value 6) by lia.
  destruct (index value 5); cbn [Py.bind]; discriminate.
Qed.

Lemma short_no_immediate value x :
  (String.length value < 7)%nat -> getITypeImmediate value <> Ok x.
Proof.
  intros Hlen. unfold getITypeImmediate, lookupAt.
  rewrite (index_beyond value 6) by lia.
  destruct (index value 4); cbn [Py.bind]; try discriminate.
  destruct (index value 5); cbn [Py.bind]; try discriminate.
  destruct (add _ _); cbn [Py.bind]; discriminate.
Qed.

(** X16.  A line of fewer than seven characters is never rendered: the iteration
    ends with an error, or, when the opcode is unknown, leaves the state as
    it was. *)
Theorem short_line_never_rendered index value st st' :
  (String.length value < 7)%nat ->
  step index value st = Ok st' ->
  st' = st.
Proof.
  intros Hlen H. unfold step in H. run_step H;
    try (exfalso; eapply short_no_shamt; eassumption);
    try (exfalso; eapply short_no_immediate; eassumption).
  now injection H.
Qed.

Lemma short_line_never_rendered_witness :
  step 1 "fc00" (mkState ["s0"] "0010" 3) = Ok (mkState ["s0"] "0010" 3)
  /\ mkState ["s0"] "0010" 3 = mkState ["s0"] "0010" 3.
Proof.
  split; [reflexivity |].
  apply (short_line_never_rendered 1 "fc00" (mkState ["s0"] "0010" 3)
           (mkState ["s0"] "0010" 3)).
  - cbn. lia.
  - reflexivity.
Defined.

(* ================================================================== *)
(** * A forward branch and its label *)

(** X17.  A forward branch over [n] words that are not branches, onto a second
    branch: the line of the first branch, the lines of the words, and then,
    in the place of the second branch, the label line of the address that
    the first branch refers to. *)
Theorem forward_label_discharged f ef wes t et index st ls :
  isWord f -> isBranch f ->
  immOf f = Z.of_nat (length wes) + 1 -> immOf f < 32768 ->
  index <> checkIndex st ->
  Forall (fun we => isWord (fst we) /\ ~ isBranch (fst we)) wes ->
  programLines (map fst wes) = Some ls ->
  isWord t -> isBranch t ->
  let addressText := hexAddress ((index + immOf f) * 4 + 4) in
  loop index (lowerLine f ef :: map asLine wes ++ [lowerLine t et]) st
  = Ok (mkState
          (listQ st
           ++ [line4 (branchName f) (registerName (rtOf f))
                     (registerName (rsOf f)) (labelRef addressText)]
           ++ ls ++ [labelLine addressText])
          addressText (index + immOf f)).
Proof.
  intros Hf Hbf Hr Hlt Hi Hplain Hls Ht Hbt addressText.
  cbn [loop].
  rewrite (step_branch f ef Hf index st Hbf).
  destruct (Z.eqb_spec index (checkIndex st)) as [Heq | _]; [contradiction |].
  rewrite branch_forward by (pose proof (immOf_range f); lia).
  cbn [Py.bind]. rewrite loop_app.
  rewrite (loop_plain wes Hplain ls _ _ Hls). cbn [Py.bind loop].
  rewrite (step_branch t et Ht _ _ Hbt). cbn [emit checkIndex].
  rewrite length_map.
  replace (index + 1 + Z.of_nat (length wes)) with (index + immOf f) by lia.
  rewrite Z.eqb_refl. cbn [Py.bind].
  unfold appendLine, emit. cbn [listQ tempAddress checkIndex].
  subst addressText. rewrite <- !app_assoc. reflexivity.
Qed.

Lemma forward_label_discharged_witness :
  loop 1 [lowerLine 0x11090002 true; lowerLine 0x01095020 true;
          lowerLine 0x1509fff9 true] (mkState ["s0"] "" 0)
  = Ok (mkState ["s0"; tab ++ "beq, $t1, $t0, Addr_0010";
                 tab ++ "add, $t2, $t0, $t1"; "Addr_0010:"] "0010" 3).
Proof.
  apply (forward_label_discharged 0x11090002 true [(0x01095020, true)]
           0x1509fff9 true 1 (mkState ["s0"] "" 0)
           [tab ++ "add, $t2, $t0, $t1"]).
  - unfold isWord. lia.
  - left. reflexivity.
  - reflexivity.
  - vm_compute. reflexivity.
  - cbn. lia.
  - repeat constructor; [unfold isWord; cbn [fst]; lia |].
    intros [H | H]; vm_compute in H; discriminate H.
  - reflexivity.
  - unfold isWord. lia.
  - right. reflexivity.
Defined.

(* ================================================================== *)
(** * The name of the output file *)

Lemma length_append_string s t :
  String.length (s ++ t) = (String.length s + String.length t)%nat.
Proof. induction s as [| c s IH]; cbn; [reflexivity | now rewrite IH]. Qed.

Lemma take_append s t : take (String.length s) (s ++ t) = s.
Proof.
  induction s as [| c s IH]; cbn; [now destruct t | now rewrite IH].
Qed.

Lemma find_first_dot stem rest :
  dotless stem ->
  forall i, find_from "." (stem ++ "." ++ rest) i
            = i + Z.of_nat (String.length stem).
Proof.
  unfold dotless. induction stem as [| c stem IH]; intros Hd i.
  - destruct rest; cbn; lia.
  - cbn [list_ascii_of_string] in Hd. inversion Hd as [| c' l Hc Hrest]; subst.
    cbn [String.append find_from String.prefix].
    destruct (ascii_dec "." c) as [E | _]; [congruence |].
    rewrite IH by exact Hrest. cbn [String.length]. lia.
Qed.

Lemma find_no_dot s :
  dotless s -> forall i, find_from "." s i = -1.
Proof.
  unfold dotless. induction s as [| c s IH]; intros Hd i.
  - reflexivity.
  - cbn [list_ascii_of_string] in Hd. inversion Hd as [| c' l Hc Hrest]; subst.
    cbn [find_from String.prefix].
    destruct (ascii_dec "." c) as [E | _]; [congruence |].
    now apply IH.
Qed.

(** X18.  The output file is named after what comes before the first dot of the
    argument, whatever follows that dot; an argument without a dot loses
    its last character instead, because [find] answers [-1] and the slice
    then stops one character before the end. *)
Theorem output_name :
  (forall stem rest,
     dotless stem -> outputName (stem ++ "." ++ rest) = stem ++ ".s")
  /\ (forall s c,
        dotless (s ++ String c "") ->
        outputName (s ++ String c "") = s ++ ".s").
Proof.
  split.
  - intros stem rest Hd. unfold outputName, find.
    rewrite (find_first_dot stem rest Hd 0). unfold slice_to.
    destruct (Z.ltb_spec (0 + Z.of_nat (String.length stem)) 0); [lia |].
    replace (Z.to_nat (0 + Z.of_nat (String.length stem)))
      with (String.length stem) by lia.
    now rewrite take_append.
  - intros s c Hd. unfold outputName, find.
    rewrite (find_no_dot _ Hd 0). unfold slice_to.
    rewrite length_append_string. cbn [String.length Z.ltb Z.compare].
    replace (Z.to_nat (Z.max 0 (-1 + Z.of_nat (String.length s + 1))))
      with (String.length s) by lia.
    now rewrite take_append.
Qed.

Lemma output_name_witness :
  outputName "test_case.obj.txt" = "test_case.s"
  /\ outputName "program" = "progra.s".
Proof.
  destruct output_name as [Hdot Hnone]. split.
  - apply (Hdot "test_case" "obj.txt"). repeat constructor; discriminate.
  - apply (Hnone "progra" "m"%char). repeat constructor; discriminate.
Defined.

(* ================================================================== *)
(** * Further properties of the buffer and of the addresses *)

(** X19.  In a run where the opcode of every line so far is zero or one of the
    table, the buffer has a line at every slot before the current one: the
    lookup [listQ[tempIndex]] of a backward branch finds a line. *)
Theorem destination_has_line pre st d :
  loop 0 pre initial = Ok st ->
  Forall knownOpcode pre ->
  0 <= d < Z.of_nat (length pre) ->
  exists there, item (listQ st) d = Ok there.
Proof.
  intros Hloop Hknown Hd.
  destruct (loop_length _ _ _ _ Hloop) as [_ Hlow].
  specialize (Hlow Hknown). cbn [initial listQ length] in Hlow.
  unfold item.
  destruct (nth_error (listQ st) (Z.to_nat d)) as [there |] eqn:Hnth.
  - now exists there.
  - apply nth_error_None in Hnth. lia.
Qed.

Lemma destination_has_line_witness :
  exists there,
    item [tab ++ "add, $t2, $t0, $t1"; tab ++ "sub, $t3, $t1, $t2"] 1
    = Ok there.
Proof.
  apply (destination_has_line
           [lowerLine 0x01095020 true; lowerLine 0x012a5822 true]
           (mkState [tab ++ "add, $t2, $t0, $t1"; tab ++ "sub, $t3, $t1, $t2"]
                    "" 0) 1).
  - reflexivity.
  - repeat constructor; eexists; (split; [reflexivity | now left]).
  - cbn. lia.
Defined.

(** X20.  The address text of an address below [16 ^ 4] is made of exactly four
    lower-case hexadecimal digits, the most significant first, with zeros
    in front of a small number. *)
Theorem address_text_four_digits n :
  0 <= n < 65536 ->
  hexAddress n = fourDigits n /\ String.length (hexAddress n) = 4%nat.
Proof.
  intros Hn. rewrite (hexAddress_four_digits n Hn). split; reflexivity.
Qed.

Lemma address_text_four_digits_witness :
  hexAddress 12 = "000c" /\ String.length (hexAddress 12) = 4%nat.
Proof. apply (address_text_four_digits 12). lia. Defined.

(** X21.  A word whose opcode is neither zero nor a key of [iOpcodes] is passed
    over at every slot and in every state: no line, no error, the same
    state, and the run goes on with the next line at the next slot. *)
Theorem unknown_opcode_passed_over w eol index st rest :
  isWord w -> opcodeOf w <> 0 ->
  get iOpcodes (hex (opcodeOf w)) = None ->
  step index (lowerLine w eol) st = Ok st
  /\ loop index (lowerLine w eol :: rest) st = loop (index + 1) rest st.
Proof.
  intros Hw Hnz Hget.
  pose proof (step_unknown_opcode w eol index st Hw Hnz Hget) as Hstep.
  split; [exact Hstep |].
  cbn [loop]. rewrite Hstep. reflexivity.
Qed.

Lemma unknown_opcode_passed_over_witness :
  step 5 (lowerLine 0x7c000000 true) (mkState ["s0"] "0010" 3)
  = Ok (mkState ["s0"] "0010" 3).
Proof.
  apply (unknown_opcode_passed_over 0x7c000000 true 5
           (mkState ["s0"] "0010" 3) []).
  - unfold isWord. lia.
  - vm_compute. discriminate.
  - reflexivity.
Defined.
